(** * Server-side API layer: a shallow embedding of the route handlers

    The repository is a set of Next.js route handlers (one module per
    [route.ts]): the credentials sign-in callbacks, the users collection and
    item handlers, the requests collection handler, the request statistics,
    the activity log listing and the mail relay.  Every handler is a
    straight-line JavaScript function that validates its input with Joi,
    talks to the database through Prisma (or to the mail transport) and
    builds a [NextResponse].  Embedded here are the redirect callback, the
    handlers of users, requests and statistics, and the mail relay.

    The embedding keeps that shape:
    - JavaScript values are a small inductive type ([JsValue]);
    - a handler is a program over the calls it awaits ([Prog] over [apiE]),
      with JavaScript exceptions as an error layer ([Js]) and [try_catch];
    - running a program against a backing store ([run]) gives the response,
      the final store and the list of calls that were made with their
      outcomes ([Event]).  Theorems quantified over the store's behaviour
      hold for every database and transport, failing ones included. *)

From Stdlib Require Import ZArith List String Ascii Bool Lia DecimalString.
Import ListNotations.
Local Open Scope string_scope.
Local Open Scope Z_scope.

Set Warnings "-register-all".

(** ** JavaScript values *)

(** Numbers are the integer-valued ones; [jsnum] adds [NaN] for the result
    of [parseInt].  A string is the sequence of its code units, one [ascii]
    each. *)
Inductive JsValue : Type :=
| VUndefined
| VNull
| VBool (b : bool)
| VNum (n : Z)
| VStr (s : string)
| VArr (items : list JsValue)
| VObj (fields : list (string * JsValue)).

Definition jsnum := option Z.
Definition NaN : jsnum := None.

(** [o.k] on an object literal or a parsed JSON object. *)
Fixpoint assoc (k : string) (fs : list (string * JsValue)) : JsValue :=
  match fs with
  | [] => VUndefined
  | (k', v) :: rest => if String.eqb k k' then v else assoc k rest
  end.

Definition get (k : string) (v : JsValue) : JsValue :=
  match v with
  | VObj fs => assoc k fs
  | _ => VUndefined
  end.

(** [o[k] = v]: replaces the binding in place, or appends it. *)
Fixpoint set_key (k : string) (v : JsValue) (fs : list (string * JsValue))
  : list (string * JsValue) :=
  match fs with
  | [] => [(k, v)]
  | (k', v') :: rest =>
      if String.eqb k k' then (k', v) :: rest else (k', v') :: set_key k v rest
  end.

(** Truthiness, as used by [if (x)], [!x] and [a || b]. *)
Definition truthy (v : JsValue) : bool :=
  match v with
  | VUndefined | VNull => false
  | VBool b => b
  | VNum n => negb (n =? 0)
  | VStr s => negb (String.eqb s "")
  | VArr _ | VObj _ => true
  end.

Definition js_or (a b : JsValue) : JsValue := if truthy a then a else b.

(** ** Strings *)

Definition startsWith (s search : string) : bool := String.prefix search s.

Fixpoint includes (s search : string) : bool :=
  String.prefix search s
  || match s with
     | EmptyString => false
     | String _ rest => includes rest search
     end.

(** Number to string conversion of template literals. *)
Definition string_of_Z (n : Z) : string := NilZero.string_of_int (Z.to_int n).

Fixpoint join (sep : string) (l : list string) : string :=
  match l with
  | [] => ""
  | [x] => x
  | x :: rest => x ++ sep ++ join sep rest
  end.

(** [s.split('/').pop()]: what follows the last slash. *)
Fixpoint last_segment_aux (s acc : string) : string :=
  match s with
  | EmptyString => acc
  | String c rest =>
      if Ascii.eqb c "/" then last_segment_aux rest ""
      else last_segment_aux rest (acc ++ String c "")
  end.

Definition split_pop (s : string) : string := last_segment_aux s "".

(** *** [parseInt] with no radix argument *)

Definition is_white_space (c : ascii) : bool :=
  let n := nat_of_ascii c in
  (Nat.eqb n 32 || Nat.eqb n 9 || Nat.eqb n 10 || Nat.eqb n 11
   || Nat.eqb n 12 || Nat.eqb n 13)%bool.

Fixpoint trim_start (s : string) : string :=
  match s with
  | String c rest => if is_white_space c then trim_start rest else s
  | EmptyString => s
  end.

Definition digit_value (c : ascii) : option Z :=
  let n := Z.of_nat (nat_of_ascii c) in
  if (48 <=? n) && (n <=? 57) then Some (n - 48)
  else if (97 <=? n) && (n <=? 122) then Some (n - 87)
  else if (65 <=? n) && (n <=? 90) then Some (n - 55)
  else None.

(** Longest prefix of digits of the radix; [None] when there is none. *)
Fixpoint parse_digits (radix : Z) (s : string) (acc : jsnum) : jsnum :=
  match s with
  | EmptyString => acc
  | String c rest =>
      match digit_value c with
      | Some d =>
          if d <? radix
          then parse_digits radix rest
                 (Some (match acc with None => d | Some a => a * radix + d end))
          else acc
      | None => acc
      end
  end.

(** [parseInt(input, radix)]; without a radix a [0x] prefix selects 16. *)
Definition parseInt_radix (input : string) (radix : option Z) : jsnum :=
  let s := trim_start input in
  let '(sign, s) :=
    match s with
    | String "-" rest => (-1, rest)
    | String "+" rest => (1, rest)
    | _ => (1, s)
    end in
  let '(radix, s) :=
    match radix, s with
    | None, String "0" (String "x" rest) => (16, rest)
    | None, String "0" (String "X" rest) => (16, rest)
    | None, _ => (10, s)
    | Some r, _ => (r, s)
    end in
  option_map (Z.mul sign) (parse_digits radix s NaN).

Definition parseInt (input : string) : jsnum := parseInt_radix input None.

(** The string a possibly missing value converts to before it is parsed
    ([null] for an absent query parameter, [undefined] for an unset
    environment variable). *)
Definition to_string_or (missing : string) (x : option string) : string :=
  match x with
  | Some s => s
  | None => missing
  end.

(** ** Sign-in callbacks ([api/auth/[...nextauth]/route]) *)

Module Auth.

(** [async redirect({ url, baseUrl })]. *)
Definition redirect (url baseUrl : string) : string :=
  if startsWith url baseUrl then baseUrl else url.

End Auth.

(** ** Joi schemas

    The part of Joi (version 17) that the schemas of the repository use:
    object schemas whose keys are [Joi.number()] or [Joi.string()] with
    [alphanum], [min], [max], [email], [valid], [default], [required] and
    [optional], validated with the options [allowUnknown] and
    [abortEarly]. *)

Module Joi.

Inductive ErrType : Type :=
| any_required | any_only
| number_base | number_unsafe
| string_base | string_empty | string_min | string_max
| string_alphanum | string_email
| object_base | object_unknown.

(** One entry of [error.details]: the key it is about and the error code. *)
Record Detail : Type := mkDetail { detail_key : string; detail_type : ErrType }.

(** What Joi delegates to its own helpers and what the handlers only pass
    on: the conversion of strings to numbers and to objects (Joi validates
    with [convert: true]), the e-mail address check, and the text of
    [detail.message]. *)
Class JoiLib : Type := {
  number_of_string : string -> option Z;
  object_of_string : string -> option (list (string * JsValue));
  is_email : string -> bool;
  message : Detail -> string
}.

Inductive Presence : Type := required | optional.

Inductive StringRule : Type :=
| alphanum
| min (limit : nat)
| max (limit : nat)
| email.

Inductive KeySchema : Type :=
| number (presence : Presence)
| string_ (rules : list StringRule) (valid : list string)
            (default : option string) (presence : Presence).

Definition ObjectSchema := list (string * KeySchema).

Record ValidationOptions : Type := {
  allowUnknown : bool;
  abortEarly : bool
}.

Definition defaults : ValidationOptions :=
  {| allowUnknown := false; abortEarly := true |}.

(** The result of [schema.validate]: [error] is [undefined] exactly when
    [details] is empty. *)
Record ValidationResult : Type := {
  details : list Detail;
  value : JsValue
}.

Definition MAX_SAFE_INTEGER : Z := 9007199254740991.

Definition is_alphanum_char (c : ascii) : bool :=
  let n := Z.of_nat (nat_of_ascii c) in
  ((48 <=? n) && (n <=? 57)) || ((97 <=? n) && (n <=? 122))
  || ((65 <=? n) && (n <=? 90)).

Fixpoint all_chars (p : ascii -> bool) (s : string) : bool :=
  match s with
  | EmptyString => true
  | String c rest => p c && all_chars p rest
  end.

Section Validate.
Context {joi : JoiLib}.

Definition check_rule (r : StringRule) (s : string) : option ErrType :=
  match r with
  | alphanum =>
      if all_chars is_alphanum_char s then None else Some string_alphanum
  | min limit =>
      if (limit <=? String.length s)%nat then None else Some string_min
  | max limit =>
      if (String.length s <=? limit)%nat then None else Some string_max
  | email => if is_email s then None else Some string_email
  end.

(** The rules run in the order they were chained; with [abortEarly] the
    first failure ends the validation of the value. *)
Fixpoint check_rules (abort : bool) (rules : list StringRule) (s : string)
  : list ErrType :=
  match rules with
  | [] => []
  | r :: rest =>
      match check_rule r s with
      | Some e => if abort then [e] else e :: check_rules abort rest s
      | None => check_rules abort rest s
      end
  end.

Definition validate_number (v : JsValue) : list ErrType * JsValue :=
  let check n :=
    if (Z.abs n <=? MAX_SAFE_INTEGER) then ([], VNum n)
    else ([number_unsafe], VNum n) in
  match v with
  | VNum n => check n
  | VStr s =>
      match number_of_string s with
      | Some n => check n
      | None => ([number_base], v)
      end
  | _ => ([number_base], v)
  end.

(** A string key: allowed values first (a match ends the validation), then
    the base type and the emptiness check (a failure there skips the
    rules), then the rules. *)
Definition validate_string (abort : bool) (rules : list StringRule)
           (valid : list string) (v : JsValue) : list ErrType :=
  let base :=
    match v with
    | VStr s =>
        if String.eqb s "" then [string_empty] else check_rules abort rules s
    | _ => [string_base]
    end in
  match valid with
  | [] => base
  | _ =>
      match v with
      | VStr s =>
          if existsb (String.eqb s) valid then []
          else if abort then [any_only] else any_only :: base
      | _ => if abort then [any_only] else any_only :: base
      end
  end.

(** Validation of the value under one key: the errors and the value that
    goes into the result ([VUndefined]: the key is left as it is). *)
Definition validate_key (abort : bool) (sch : KeySchema) (v : JsValue)
  : list ErrType * JsValue :=
  match sch, v with
  | number required, VUndefined => ([any_required], VUndefined)
  | number optional, VUndefined => ([], VUndefined)
  | number _, _ => validate_number v
  | string_ _ _ _ required, VUndefined => ([any_required], VUndefined)
  | string_ _ _ (Some d) optional, VUndefined => ([], VStr d)
  | string_ _ _ None optional, VUndefined => ([], VUndefined)
  | string_ rules valid _ _, _ => (validate_string abort rules valid v, v)
  end.

(** The keys of the schema, in the order of the schema. *)
Fixpoint validate_keys (abort : bool) (schema : ObjectSchema)
         (input : list (string * JsValue)) (out : list (string * JsValue))
  : list Detail * list (string * JsValue) :=
  match schema with
  | [] => ([], out)
  | (k, sch) :: rest =>
      let '(errs, v) := validate_key abort sch (assoc k input) in
      let out' := match v with VUndefined => out | _ => set_key k v out end in
      let ds := map (mkDetail k) errs in
      match ds with
      | _ :: _ => if abort then (ds, out')
                  else let '(ds', out'') := validate_keys abort rest input out' in
                       ((ds ++ ds')%list, out'')
      | [] => validate_keys abort rest input out'
      end
  end.

(** The keys of the input that the schema does not know. *)
Definition unknown_keys (schema : ObjectSchema)
           (input : list (string * JsValue)) : list Detail :=
  map (fun kv => mkDetail (fst kv) object_unknown)
      (filter (fun kv =>
                 negb (existsb (fun ks => String.eqb (fst kv) (fst ks)) schema))
              input).

Definition validate_object (schema : ObjectSchema) (opts : ValidationOptions)
           (input : list (string * JsValue)) : ValidationResult :=
  let '(ds, out) := validate_keys (abortEarly opts) schema input input in
  match ds with
  | _ :: _ =>
      if abortEarly opts then {| details := ds; value := VObj out |}
      else {| details := (ds ++ (if allowUnknown opts then []
                                 else unknown_keys schema input))%list;
              value := VObj out |}
  | [] =>
      let unk := if allowUnknown opts then [] else unknown_keys schema input in
      {| details := if abortEarly opts then firstn 1 unk else unk;
         value := VObj out |}
  end.

(** [schema.validate(body, options)]. *)
Definition validate (schema : ObjectSchema) (opts : ValidationOptions)
           (body : JsValue) : ValidationResult :=
  match body with
  | VObj input => validate_object schema opts input
  | VStr s =>
      match object_of_string s with
      | Some input => validate_object schema opts input
      | None => {| details := [mkDetail "value" object_base]; value := body |}
      end
  | _ => {| details := [mkDetail "value" object_base]; value := body |}
  end.

End Validate.

End Joi.

(** ** Persisted rows *)

(** Modelled from the spec: the Prisma schema is not part of the sources.
    A user row has a unique identifier, a unique username, a unique e-mail
    address, a password hash and a role reference. *)
Record User : Type := {
  user_id : Z;
  username : string;
  email : string;
  password : string;
  roleId : Z
}.

(** Modelled from the spec: a role has a unique name (its permission set is
    only read by the sign-in callback). *)
Record Role : Type := {
  role_id : Z;
  role_name : string
}.

(** Modelled from the spec: zero or one profile per user, keyed by the user
    identifier. *)
Record UserProfile : Type := {
  profile_userId : Z;
  firstName : string;
  lastName : string;
  phone : string;
  address : string
}.

(** Modelled from the spec: a request has an owning user, a description and
    a status (the timestamps are left out). *)
Record Request : Type := {
  request_id : Z;
  request_userId : Z;
  description : string;
  status : string
}.

(** Modelled from the spec: an audit entry has a user reference, an action
    label and a free-text description. *)
Record ActivityLog : Type := {
  log_id : Z;
  log_userId : Z;
  action : string;
  log_description : string
}.

(** A user as [findUnique] and [findMany] return it with
    [include: { role: true }] and, when asked, [profile: true]. *)
Record UserWith : Type := {
  the_user : User;
  role : Role;
  profile : option (option UserProfile)
}.

(** The object a row serialises to in a JSON response. *)
Definition json_of_role (r : Role) : JsValue :=
  VObj [("id", VNum (role_id r)); ("name", VStr (role_name r))].

Definition json_of_profile (p : UserProfile) : JsValue :=
  VObj [("userId", VNum (profile_userId p));
        ("firstName", VStr (firstName p)); ("lastName", VStr (lastName p));
        ("phone", VStr (phone p)); ("address", VStr (address p))].

Definition user_fields (u : User) : list (string * JsValue) :=
  [("id", VNum (user_id u)); ("username", VStr (username u));
   ("email", VStr (email u)); ("password", VStr (password u));
   ("roleId", VNum (roleId u))].

Definition json_of_user (u : User) : JsValue := VObj (user_fields u).

Definition json_of_user_with (u : UserWith) : JsValue :=
  VObj (user_fields (the_user u)
        ++ [("role", json_of_role (role u))]
        ++ match profile u with
           | None => []
           | Some None => [("profile", VNull)]
           | Some (Some p) => [("profile", json_of_profile p)]
           end)%list.

Definition json_of_request (r : Request) : JsValue :=
  VObj [("id", VNum (request_id r)); ("userId", VNum (request_userId r));
        ("description", VStr (description r)); ("status", VStr (status r))].

(** ** Exceptions, awaited calls and programs *)

(** A thrown [Error]; the handlers only read [error.message]. *)
Record exn : Type := Error { error_message : string }.

(** The four optional profile fields as the handlers pass them on. *)
Record ProfileInput : Type := {
  in_firstName : JsValue;
  in_lastName : JsValue;
  in_phone : JsValue;
  in_address : JsValue
}.

(** [data] of [prisma.user.create] in the users collection handler. *)
Record UserCreateInput : Type := {
  in_username : JsValue;
  in_email : JsValue;
  in_password : string;
  in_role_connect : Z;
  in_profile_create : ProfileInput
}.

(** [nodemailer.createTransport] options and the message. *)
Record TransportOptions : Type := {
  host : option string;
  port : jsnum;
  secure : bool;
  auth_user : option string;
  auth_pass : option string
}.

Record MailOptions : Type := {
  from : option string;
  to : JsValue;
  subject : JsValue;
  text : JsValue
}.

(** The calls a handler awaits, indexed by the type of what they resolve
    to.  Each of them may instead reject (throw). *)
Inductive apiE : Type -> Type :=
| UserFindUnique (id : jsnum) (include_profile : bool) : apiE (option UserWith)
| UserFindMany (include_profile : bool) : apiE (list UserWith)
| UserCreate (data : UserCreateInput) : apiE User
| UserUpdate (id : jsnum) (data : list (string * JsValue)) : apiE User
| UserDelete (id : jsnum) : apiE User
| RoleFindUnique (name : JsValue) : apiE (option Role)
| UserProfileFindUnique (userId : Z) : apiE (option UserProfile)
| UserProfileDelete (userId : Z) : apiE UserProfile
| UserProfileUpsert (userId : Z) (update create : ProfileInput) : apiE UserProfile
| RequestFindMany : apiE (list Request)
| RequestCreate (data : JsValue) : apiE Request
| RequestUpdate (id : jsnum) (data : JsValue) : apiE Request
| RequestDelete (id : jsnum) : apiE Request
| RequestDeleteMany (userId : Z) : apiE Z
| ActivityLogCreate (userId : Z) (action description : string) : apiE ActivityLog
| BcryptHash (data : JsValue) (rounds : Z) : apiE string
| SendMail (transport : TransportOptions) (mail : MailOptions) : apiE JsValue.

(** A call together with its outcome, as it appears in the history of a
    run. *)
Inductive Event : Type :=
| E_UserFindUnique (id : jsnum) (include_profile : bool) (r : exn + option UserWith)
| E_UserFindMany (include_profile : bool) (r : exn + list UserWith)
| E_UserCreate (data : UserCreateInput) (r : exn + User)
| E_UserUpdate (id : jsnum) (data : list (string * JsValue)) (r : exn + User)
| E_UserDelete (id : jsnum) (r : exn + User)
| E_RoleFindUnique (name : JsValue) (r : exn + option Role)
| E_UserProfileFindUnique (userId : Z) (r : exn + option UserProfile)
| E_UserProfileDelete (userId : Z) (r : exn + UserProfile)
| E_UserProfileUpsert (userId : Z) (update create : ProfileInput) (r : exn + UserProfile)
| E_RequestFindMany (r : exn + list Request)
| E_RequestCreate (data : JsValue) (r : exn + Request)
| E_RequestUpdate (id : jsnum) (data : JsValue) (r : exn + Request)
| E_RequestDelete (id : jsnum) (r : exn + Request)
| E_RequestDeleteMany (userId : Z) (r : exn + Z)
| E_ActivityLogCreate (userId : Z) (action description : string) (r : exn + ActivityLog)
| E_BcryptHash (data : JsValue) (rounds : Z) (r : exn + string)
| E_SendMail (transport : TransportOptions) (mail : MailOptions) (r : exn + JsValue).

Definition event_of {X} (op : apiE X) : exn + X -> Event :=
  match op in apiE X return exn + X -> Event with
  | UserFindUnique id inc => E_UserFindUnique id inc
  | UserFindMany inc => E_UserFindMany inc
  | UserCreate data => E_UserCreate data
  | UserUpdate id data => E_UserUpdate id data
  | UserDelete id => E_UserDelete id
  | RoleFindUnique name => E_RoleFindUnique name
  | UserProfileFindUnique userId => E_UserProfileFindUnique userId
  | UserProfileDelete userId => E_UserProfileDelete userId
  | UserProfileUpsert userId update create => E_UserProfileUpsert userId update create
  | RequestFindMany => E_RequestFindMany
  | RequestCreate data => E_RequestCreate data
  | RequestUpdate id data => E_RequestUpdate id data
  | RequestDelete id => E_RequestDelete id
  | RequestDeleteMany userId => E_RequestDeleteMany userId
  | ActivityLogCreate userId action description =>
      E_ActivityLogCreate userId action description
  | BcryptHash data rounds => E_BcryptHash data rounds
  | SendMail transport mail => E_SendMail transport mail
  end.

(** A program: a result, or a call and what to do with its outcome. *)
Inductive Prog (R : Type) : Type :=
| Ret (r : R)
| Vis (X : Type) (op : apiE X) (k : exn + X -> Prog R).

Arguments Ret {R} r.
Arguments Vis {R X} op k.

Fixpoint pbind {A B} (p : Prog A) (f : A -> Prog B) : Prog B :=
  match p with
  | Ret a => f a
  | Vis op k => Vis op (fun x => pbind (k x) f)
  end.

(** A computation that may throw. *)
Definition Js (A : Type) : Type := Prog (exn + A).

Definition ret {A} (a : A) : Js A := Ret (inr a).
Definition throw {A} (e : exn) : Js A := Ret (inl e).

Definition bind {A B} (m : Js A) (f : A -> Js B) : Js B :=
  pbind m (fun r => match r with inl e => Ret (inl e) | inr a => f a end).

(** [await op]: the value the call resolves to, or its rejection thrown. *)
Definition await {X} (op : apiE X) : Js X := Vis op Ret.

(** A value that is either there or an exception to throw. *)
Definition lift {A} (r : exn + A) : Js A := Ret r.

(** [try { body } catch (error) { handler }] around a body that returns. *)
Definition try_catch {A} (body : Js A) (handler : exn -> Js A) : Js A :=
  pbind body (fun r => match r with inl e => handler e | inr a => Ret (inr a) end).

Declare Scope js_scope.
Delimit Scope js_scope with js.
Notation "x <- m ;; k" := (bind m (fun x => k))
  (at level 61, m at next level, right associativity) : js_scope.
Notation "m ;; k" := (bind m (fun _ => k))
  (at level 61, right associativity) : js_scope.

(** *** Running a program against a backing store *)

(** The behaviour of everything outside the handlers: each call answers or
    rejects, and moves the store on. *)
Definition Backend (S : Type) : Type := forall X, apiE X -> S -> (exn + X) * S.

Fixpoint run {S R} (h : Backend S) (p : Prog R) (s : S) : R * S * list Event :=
  match p with
  | Ret r => (r, s, [])
  | Vis op k =>
      let '(x, s1) := h _ op s in
      let '(r, s2, history) := run h (k x) s1 in
      (r, s2, event_of op x :: history)
  end.

(** ** Requests and responses *)

(** An incoming request: its URL, the query parameters of that URL, and
    what [req.json()] gives (it rejects when the body is not JSON). *)
Record HttpRequest : Type := {
  url : string;
  searchParams : list (string * string);
  json : exn + JsValue
}.

Fixpoint searchParams_get (k : string) (ps : list (string * string)) : option string :=
  match ps with
  | [] => None
  | (k', v) :: rest => if String.eqb k k' then Some v else searchParams_get k rest
  end.

Record Response : Type := {
  res_status : Z;
  res_body : option JsValue
}.

Module NextResponse.
(** The statuses of a response that cannot have a body. *)
Definition null_body_status (status : Z) : bool :=
  (status =? 101) || (status =? 103) || (status =? 204) || (status =? 205)
  || (status =? 304).
(** The response with a JSON body. *)
Definition of_json (body : JsValue) (status : Z) : Response :=
  {| res_status := status; res_body := Some body |}.
(** [NextResponse.json(body, { status })]: the constructor of a response
    throws a [TypeError] when it is given a body together with a null body
    status. *)
Definition json_with (body : JsValue) (status : Z) : Js Response :=
  if null_body_status status
  then throw (Error ("Response constructor: Invalid response status code "
                       ++ string_of_Z status))
  else ret (of_json body status).
(** [NextResponse.json(body)]. *)
Definition json (body : JsValue) : Js Response := json_with body 200.
(** [new NextResponse(null, { status })]. *)
Definition empty (status : Z) : Js Response :=
  ret {| res_status := status; res_body := None |}.
End NextResponse.

(** [{ error: text }]. *)
Definition error_body (text : string) : JsValue := VObj [("error", VStr text)].

(** A handler never lets an exception escape: every path of the sources
    returns a response, and an uncaught rejection (the code before the
    [try]) is kept as it is. *)
Definition Handler : Type := Js Response.

Local Open Scope js_scope.

(** ** Requests collection ([api/requests/route]) *)

Module Requests.
Section Handlers.
Context {joi : Joi.JoiLib}.

Definition requestSchema : Joi.ObjectSchema :=
  [("userId", Joi.number Joi.required);
   ("description", Joi.string_ [Joi.min 10] [] None Joi.required);
   ("status", Joi.string_ [] ["pending"; "in-progress"; "completed"]
                          (Some "pending") Joi.optional)].

Definition logActivity (userId : Z) (action description : string) : Js unit :=
  _ <- await (ActivityLogCreate userId action description);;
  ret tt.

Definition POST (req : HttpRequest) : Handler :=
  try_catch
    (body <- lift (json req);;
     let result := Joi.validate requestSchema Joi.defaults body in
     match Joi.details result with
     | d :: _ =>
         NextResponse.json_with (error_body (Joi.message d)) 400
     | [] =>
         newRequest <- await (RequestCreate (Joi.value result));;
         logActivity (request_userId newRequest) "CREATE"
           ("Created a new request with ID " ++ string_of_Z (request_id newRequest));;
         NextResponse.json_with (json_of_request newRequest) 201
     end)
    (fun error =>
       NextResponse.json_with (error_body "Error creating request") 500).

Definition PUT (req : HttpRequest) : Handler :=
  let id := searchParams_get "id" (searchParams req) in
  try_catch
    (body <- lift (json req);;
     let result :=
       Joi.validate requestSchema
         {| Joi.allowUnknown := true; Joi.abortEarly := false |} body in
     match Joi.details result with
     | _ :: _ =>
         NextResponse.json_with
            (error_body (join ", " (map Joi.message (Joi.details result))))
            400
     | [] =>
         updatedRequest <-
           await (RequestUpdate (parseInt (to_string_or "null" id))
                                (Joi.value result));;
         logActivity (request_userId updatedRequest) "UPDATE"
           ("Updated request with ID " ++ string_of_Z (request_id updatedRequest));;
         NextResponse.json (json_of_request updatedRequest)
     end)
    (fun error =>
       NextResponse.json_with (error_body "Error updating request") 500).

Definition DELETE (req : HttpRequest) : Handler :=
  let id := searchParams_get "id" (searchParams req) in
  try_catch
    (deletedRequest <- await (RequestDelete (parseInt (to_string_or "null" id)));;
     logActivity (request_userId deletedRequest) "DELETE"
       ("Deleted request with ID " ++ string_of_Z (request_id deletedRequest));;
     NextResponse.json_with (VObj []) 200)
    (fun error =>
       NextResponse.json_with (error_body "Error deleting request") 500).

End Handlers.
End Requests.

(** ** Request statistics ([api/requests/stats/route]) *)

Module RequestStats.

(** [requests.filter(req => req.status === s).length]. *)
Definition count_status (s : string) (requests : list Request) : Z :=
  Z.of_nat (List.length (filter (fun req => String.eqb (status req) s) requests)).

Definition GET : Handler :=
  try_catch
    (requests <- await RequestFindMany;;
     let total := Z.of_nat (List.length requests) in
     let pending := count_status "pending" requests in
     let inProgress := count_status "in-progress" requests in
     let completed := count_status "completed" requests in
     let rejected := count_status "rejected" requests in
     NextResponse.json
        (VObj [("total", VNum total); ("pending", VNum pending);
               ("inProgress", VNum inProgress);
               ("completed", VNum completed);
               ("rejected", VNum rejected)]))
    (fun error =>
       NextResponse.json_with
          (error_body "Failed to fetch request stats") 500).

End RequestStats.

(** ** One user ([api/users/[id]/route]) *)

Module UserItem.
Section Handlers.
Context {joi : Joi.JoiLib}.

Definition updateUserSchema : Joi.ObjectSchema :=
  [("username", Joi.string_ [Joi.alphanum; Joi.min 3; Joi.max 30] [] None Joi.required);
   ("email", Joi.string_ [Joi.email] [] None Joi.required);
   ("password", Joi.string_ [Joi.min 8] [] None Joi.required)].

Definition GET (req : HttpRequest) : Handler :=
  let id := split_pop (url req) in
  try_catch
    (user <- await (UserFindUnique (parseInt id) false);;
     match user with
     | None => NextResponse.json_with (error_body "User not found") 404
     | Some user => NextResponse.json (json_of_user_with user)
     end)
    (fun error =>
       NextResponse.json_with (error_body "Error fetching user") 500).

Definition PUT (req : HttpRequest) : Handler :=
  let id := split_pop (url req) in
  try_catch
    (body <- lift (json req);;
     let result :=
       Joi.validate updateUserSchema
         {| Joi.allowUnknown := true; Joi.abortEarly := false |} body in
     match Joi.details result with
     | _ :: _ =>
         NextResponse.json_with
            (error_body (join ", " (map Joi.message (Joi.details result))))
            400
     | [] =>
         let username := get "username" body in
         let password := get "password" body in
         let email := get "email" body in
         hashedPassword <- await (BcryptHash password 10);;
         updatedUser <-
           await (UserUpdate (parseInt id)
                    [("username", username);
                     ("password", VStr hashedPassword);
                     ("email", email)]);;
         NextResponse.json (json_of_user updatedUser)
     end)
    (fun error =>
       NextResponse.json_with (error_body "Error updating user") 500).

Definition DELETE (req : HttpRequest) : Handler :=
  let id := split_pop (url req) in
  try_catch
    (_ <- await (UserDelete (parseInt id));;
     NextResponse.json_with VNull 204)
    (fun error =>
       NextResponse.json_with (error_body "Error deleting user") 500).

End Handlers.
End UserItem.

(** ** Users collection ([api/users/route]) *)

Module Users.
Section Handlers.
Context {joi : Joi.JoiLib}.

Definition userSchema : Joi.ObjectSchema :=
  [("username", Joi.string_ [Joi.alphanum; Joi.min 3; Joi.max 30] [] None Joi.required);
   ("email", Joi.string_ [Joi.email] [] None Joi.required);
   ("password", Joi.string_ [Joi.min 8] [] None Joi.required);
   ("role", Joi.string_ [] ["user"; "admin"] None Joi.required);
   ("firstName", Joi.string_ [] [] None Joi.optional);
   ("lastName", Joi.string_ [] [] None Joi.optional);
   ("phone", Joi.string_ [] [] None Joi.optional);
   ("address", Joi.string_ [] [] None Joi.optional)].

Definition updateUserSchema : Joi.ObjectSchema :=
  [("username", Joi.string_ [Joi.alphanum; Joi.min 3; Joi.max 30] [] None Joi.optional);
   ("email", Joi.string_ [Joi.email] [] None Joi.optional);
   ("password", Joi.string_ [Joi.min 8] [] None Joi.optional);
   ("firstName", Joi.string_ [] [] None Joi.optional);
   ("lastName", Joi.string_ [] [] None Joi.optional);
   ("phone", Joi.string_ [] [] None Joi.optional);
   ("address", Joi.string_ [] [] None Joi.optional)].

(** [if (id)] on a query parameter: present and not empty.  The test
    [isNaN(userId)] that follows it is the case [None] of [parseInt]. *)
Definition given (id : option string) : option string :=
  match id with
  | Some s => if String.eqb s "" then None else Some s
  | None => None
  end.

Definition GET (req : HttpRequest) : Handler :=
  let id := searchParams_get "id" (searchParams req) in
  try_catch
    (match given id with
     | Some id =>
         user <- await (UserFindUnique (parseInt id) true);;
         match user with
         | None => NextResponse.json_with (error_body "User not found") 404
         | Some user => NextResponse.json (json_of_user_with user)
         end
     | None =>
         users <- await (UserFindMany true);;
         NextResponse.json (VArr (map json_of_user_with users))
     end)
    (fun error =>
       NextResponse.json_with (error_body "Error fetching user(s)") 500).

Definition POST (req : HttpRequest) : Handler :=
  try_catch
    (body <- lift (json req);;
     let result := Joi.validate userSchema Joi.defaults body in
     match Joi.details result with
     | d :: _ =>
         NextResponse.json_with (error_body (Joi.message d)) 400
     | [] =>
         let username := get "username" body in
         let email := get "email" body in
         let password := get "password" body in
         let role := get "role" body in
         let firstName := get "firstName" body in
         let lastName := get "lastName" body in
         let phone := get "phone" body in
         let address := get "address" body in
         hashedPassword <- await (BcryptHash password 10);;
         roleData <- await (RoleFindUnique role);;
         match roleData with
         | None =>
             NextResponse.json_with (error_body "Role not found") 400
         | Some roleData =>
             newUser <-
               await (UserCreate
                        {| in_username := username;
                           in_email := email;
                           in_password := hashedPassword;
                           in_role_connect := role_id roleData;
                           in_profile_create :=
                             {| in_firstName := js_or firstName (VStr "");
                                in_lastName := js_or lastName (VStr "");
                                in_phone := js_or phone (VStr "");
                                in_address := js_or address (VStr "") |} |});;
             NextResponse.json_with (json_of_user newUser) 201
         end
     end)
    (fun error =>
       if includes (error_message error) "Unique constraint failed"
       then NextResponse.json_with
               (error_body "Username or email already exists") 400
       else NextResponse.json_with (error_body "Error creating user") 500).

Definition PUT (req : HttpRequest) : Handler :=
  let id := searchParams_get "id" (searchParams req) in
  match given id with
  | None => NextResponse.json_with (error_body "User ID not provided") 400
  | Some id =>
      match parseInt id with
      | None => NextResponse.json_with (error_body "Invalid user id") 400
      | Some userId =>
          try_catch
            (body <- lift (json req);;
             let result :=
               Joi.validate updateUserSchema
                 {| Joi.allowUnknown := true; Joi.abortEarly := false |} body in
             match Joi.details result with
             | _ :: _ =>
                 NextResponse.json_with
                    (error_body
                       (join ", " (map Joi.message (Joi.details result))))
                    400
             | [] =>
                 let username := get "username" body in
                 let password := get "password" body in
                 let email := get "email" body in
                 let firstName := get "firstName" body in
                 let lastName := get "lastName" body in
                 let phone := get "phone" body in
                 let address := get "address" body in
                 let updateData := [] in
                 let updateData :=
                   if truthy username
                   then set_key "username" username updateData else updateData in
                 let updateData :=
                   if truthy email
                   then set_key "email" email updateData else updateData in
                 updateData <-
                   (if truthy password
                    then hashed <- await (BcryptHash password 10);;
                         ret (set_key "password" (VStr hashed) updateData)
                    else ret updateData);;
                 updatedUser <- await (UserUpdate (Some userId) updateData);;
                 (if truthy (js_or (js_or (js_or firstName lastName) phone) address)
                  then
                    _ <- await (UserProfileUpsert userId
                                  {| in_firstName := firstName;
                                     in_lastName := lastName;
                                     in_phone := phone;
                                     in_address := address |}
                                  {| in_firstName := firstName;
                                     in_lastName := lastName;
                                     in_phone := phone;
                                     in_address := address |});;
                    ret tt
                  else ret tt);;
                 NextResponse.json (json_of_user updatedUser)
             end)
            (fun error =>
               NextResponse.json_with (error_body "Error updating user") 500)
      end
  end.

Definition DELETE (req : HttpRequest) : Handler :=
  let id := searchParams_get "id" (searchParams req) in
  match given id with
  | None => NextResponse.json_with (error_body "User ID not provided") 400
  | Some id =>
      match parseInt id with
      | None => NextResponse.json_with (error_body "Invalid user id") 400
      | Some userId =>
          try_catch
            (userProfile <- await (UserProfileFindUnique userId);;
             (match userProfile with
              | Some _ => _ <- await (UserProfileDelete userId);; ret tt
              | None => ret tt
              end);;
             _ <- await (RequestDeleteMany userId);;
             _ <- await (UserDelete (Some userId));;
             NextResponse.empty 204)
            (fun error =>
               NextResponse.json_with (error_body "Error deleting user") 500)
      end
  end.

End Handlers.
End Users.

(** ** Mail relay ([api/mail/route]) *)

Module Mail.

(** [process.env]. *)
Record Env : Type := {
  SMTP_HOST : option string;
  SMTP_PORT : option string;
  SMTP_USER : option string;
  SMTP_PASS : option string
}.

(** [const { to, subject, text } = v]: a [TypeError] on [null]. *)
Definition destructure (v : JsValue) : exn + JsValue :=
  match v with
  | VNull | VUndefined =>
      inl (Error "Cannot destructure property 'to' of '(intermediate value)' as it is null.")
  | _ => inr v
  end.

Definition POST (env : Env) (req : HttpRequest) : Handler :=
  try_catch
    (body <- lift (json req);;
     body <- lift (destructure body);;
     let to := get "to" body in
     let subject := get "subject" body in
     let text := get "text" body in
     if negb (truthy to) || negb (truthy subject) || negb (truthy text)
     then NextResponse.json_with
             (error_body "Missing email, subject, or text") 400
     else
       let transporter :=
         {| host := SMTP_HOST env;
            port := parseInt_radix (to_string_or "undefined" (SMTP_PORT env))
                                   (Some 10);
            secure := match SMTP_PORT env with
                      | Some p => String.eqb p "465"
                      | None => false
                      end;
            auth_user := SMTP_USER env;
            auth_pass := SMTP_PASS env |} in
       let mailOptions :=
         {| from := SMTP_USER env; to := to; subject := subject; text := text |} in
       info <- await (SendMail transporter mailOptions);;
       NextResponse.json
          (VObj [("message", VStr "Correo enviado con éxito");
                 ("info", info)]))
    (fun error =>
       NextResponse.json_with
          (VObj [("error", VStr "Error al enviar el correo");
                 ("details", VStr (error_message error))])
          500).

End Mail.

(** ** A reference backing store

    Modelled from the spec: the relational store and the ORM are external
    collaborators and not part of the sources.  Five tables related by
    foreign keys (User to Role, UserProfile to User, Request to User,
    ActivityLog to User), no database-level cascade, unique usernames and
    e-mail addresses, identifiers handed out in sequence.  A query on a
    missing row answers [null]; an update or a deletion of a missing row, a
    violated constraint and ill-typed data reject. *)

Local Close Scope js_scope.

Record Store : Type := {
  users : list User;
  roles : list Role;
  userProfiles : list UserProfile;
  requests : list Request;
  activityLogs : list ActivityLog;
  next_user_id : Z;
  next_request_id : Z;
  next_log_id : Z
}.

(** What is outside the database: the password hash (with the salt of the
    run) and the answer of the SMTP server. *)
Record Services : Type := {
  bcrypt : string -> Z -> string;
  transport : TransportOptions -> MailOptions -> exn + JsValue
}.

Module Prisma.

Definition find_user (id : Z) (s : Store) : option User :=
  find (fun u => user_id u =? id) (users s).

Definition find_role (id : Z) (s : Store) : option Role :=
  find (fun r => role_id r =? id) (roles s).

Definition find_profile (userId : Z) (s : Store) : option UserProfile :=
  find (fun p => profile_userId p =? userId) (userProfiles s).

Definition find_request (id : Z) (s : Store) : option Request :=
  find (fun r => request_id r =? id) (requests s).

Definition with_relations (include_profile : bool) (s : Store) (u : User)
  : option UserWith :=
  match find_role (roleId u) s with
  | Some r =>
      Some {| the_user := u; role := r;
              profile := if include_profile
                         then Some (find_profile (user_id u) s) else None |}
  | None => None
  end.

Fixpoint all_with_relations (include_profile : bool) (s : Store)
         (us : list User) : option (list UserWith) :=
  match us with
  | [] => Some []
  | u :: rest =>
      match with_relations include_profile s u,
            all_with_relations include_profile s rest with
      | Some x, Some xs => Some (x :: xs)
      | _, _ => None
      end
  end.

(** Another user (all users, for a creation) has the name or the address. *)
Definition taken (name mail : string) (except : option Z) (s : Store) : bool :=
  existsb (fun u => match except with
                    | Some id => negb (user_id u =? id)
                    | None => true
                    end
                    && (String.eqb (username u) name || String.eqb (email u) mail))
          (users s).

Definition referenced (userId : Z) (s : Store) : bool :=
  existsb (fun p => profile_userId p =? userId) (userProfiles s)
  || existsb (fun r => request_userId r =? userId) (requests s)
  || existsb (fun l => log_userId l =? userId) (activityLogs s).

Definition invalid {A} : exn + A := inl (Error "Invalid invocation: argument validation failed").
Definition unique_violation {A} : exn + A :=
  inl (Error "Unique constraint failed on the fields: (`username`)").
Definition foreign_key_violation {A} : exn + A :=
  inl (Error "Foreign key constraint failed on the field: `userId`").
Definition not_found {A} : exn + A :=
  inl (Error "An operation failed because it depends on one or more records that were required but not found.").

(** A field of a create: a string, or left out and defaulted to the empty
    string. *)
Definition created_field (v : JsValue) : option string :=
  match v with
  | VStr x => Some x
  | VUndefined => Some ""
  | _ => None
  end.

(** A field of an update: a string, or left out and unchanged. *)
Definition updated_field (v : JsValue) (old : string) : option string :=
  match v with
  | VStr x => Some x
  | VUndefined => Some old
  | _ => None
  end.

Definition create_profile (userId : Z) (i : ProfileInput) : option UserProfile :=
  match created_field (in_firstName i), created_field (in_lastName i),
        created_field (in_phone i), created_field (in_address i) with
  | Some f, Some l, Some p, Some a =>
      Some {| profile_userId := userId; firstName := f; lastName := l;
              phone := p; address := a |}
  | _, _, _, _ => None
  end.

Definition update_profile (old : UserProfile) (i : ProfileInput) : option UserProfile :=
  match updated_field (in_firstName i) (firstName old),
        updated_field (in_lastName i) (lastName old),
        updated_field (in_phone i) (phone old),
        updated_field (in_address i) (address old) with
  | Some f, Some l, Some p, Some a =>
      Some {| profile_userId := profile_userId old; firstName := f;
              lastName := l; phone := p; address := a |}
  | _, _, _, _ => None
  end.

Definition known_keys (keys : list string) (data : list (string * JsValue)) : bool :=
  forallb (fun kv => existsb (String.eqb (fst kv)) keys) data.

Definition update_user (old : User) (data : list (string * JsValue)) : option User :=
  if known_keys ["username"; "email"; "password"] data then
    match updated_field (assoc "username" data) (username old),
          updated_field (assoc "email" data) (email old),
          updated_field (assoc "password" data) (password old) with
    | Some n, Some m, Some p =>
        Some {| user_id := user_id old; username := n; email := m;
                password := p; roleId := roleId old |}
    | _, _, _ => None
    end
  else None.

Definition update_request (old : Request) (data : list (string * JsValue))
  : option Request :=
  if known_keys ["userId"; "description"; "status"] data then
    match assoc "userId" data,
          updated_field (assoc "description" data) (description old),
          updated_field (assoc "status" data) (status old) with
    | VNum u, Some d, Some st =>
        Some {| request_id := request_id old; request_userId := u;
                description := d; status := st |}
    | VUndefined, Some d, Some st =>
        Some {| request_id := request_id old;
                request_userId := request_userId old;
                description := d; status := st |}
    | _, _, _ => None
    end
  else None.

Definition set_users (s : Store) (us : list User) : Store :=
  {| users := us; roles := roles s; userProfiles := userProfiles s;
     requests := requests s; activityLogs := activityLogs s;
     next_user_id := next_user_id s; next_request_id := next_request_id s;
     next_log_id := next_log_id s |}.

Definition set_userProfiles (s : Store) (ps : list UserProfile) : Store :=
  {| users := users s; roles := roles s; userProfiles := ps;
     requests := requests s; activityLogs := activityLogs s;
     next_user_id := next_user_id s; next_request_id := next_request_id s;
     next_log_id := next_log_id s |}.

Definition set_requests (s : Store) (rs : list Request) : Store :=
  {| users := users s; roles := roles s; userProfiles := userProfiles s;
     requests := rs; activityLogs := activityLogs s;
     next_user_id := next_user_id s; next_request_id := next_request_id s;
     next_log_id := next_log_id s |}.

Definition add_user (s : Store) (u : User) (p : UserProfile) : Store :=
  {| users := users s ++ [u]; roles := roles s;
     userProfiles := userProfiles s ++ [p];
     requests := requests s; activityLogs := activityLogs s;
     next_user_id := next_user_id s + 1; next_request_id := next_request_id s;
     next_log_id := next_log_id s |}.

Definition add_request (s : Store) (r : Request) : Store :=
  {| users := users s; roles := roles s; userProfiles := userProfiles s;
     requests := requests s ++ [r]; activityLogs := activityLogs s;
     next_user_id := next_user_id s; next_request_id := next_request_id s + 1;
     next_log_id := next_log_id s |}.

Definition add_log (s : Store) (l : ActivityLog) : Store :=
  {| users := users s; roles := roles s; userProfiles := userProfiles s;
     requests := requests s; activityLogs := activityLogs s ++ [l];
     next_user_id := next_user_id s; next_request_id := next_request_id s;
     next_log_id := next_log_id s + 1 |}.

(** The answer of the store to one call. *)
Definition answer (outside : Services) : Backend Store :=
  fun X op =>
    match op in apiE X return Store -> (exn + X) * Store with
    | UserFindUnique id include_profile => fun s =>
        match id with
        | None => (invalid, s)
        | Some id =>
            match find_user id s with
            | None => (inr None, s)
            | Some u =>
                match with_relations include_profile s u with
                | Some x => (inr (Some x), s)
                | None => (not_found, s)
                end
            end
        end
    | UserFindMany include_profile => fun s =>
        match all_with_relations include_profile s (users s) with
        | Some xs => (inr xs, s)
        | None => (not_found, s)
        end
    | UserCreate data => fun s =>
        match in_username data, in_email data,
              create_profile (next_user_id s) (in_profile_create data) with
        | VStr name, VStr mail, Some p =>
            if taken name mail None s then (unique_violation, s)
            else
              match find_role (in_role_connect data) s with
              | None => (not_found, s)
              | Some _ =>
                  let u := {| user_id := next_user_id s; username := name;
                              email := mail; password := in_password data;
                              roleId := in_role_connect data |} in
                  (inr u, add_user s u p)
              end
        | _, _, _ => (invalid, s)
        end
    | UserUpdate id data => fun s =>
        match id with
        | None => (invalid, s)
        | Some id =>
            match find_user id s with
            | None => (not_found, s)
            | Some old =>
                match update_user old data with
                | None => (invalid, s)
                | Some u =>
                    if taken (username u) (email u) (Some id) s
                    then (unique_violation, s)
                    else (inr u,
                          set_users s
                            (map (fun x => if user_id x =? id then u else x)
                                 (users s)))
                end
            end
        end
    | UserDelete id => fun s =>
        match id with
        | None => (invalid, s)
        | Some id =>
            match find_user id s with
            | None => (not_found, s)
            | Some u =>
                if referenced id s then (foreign_key_violation, s)
                else (inr u,
                      set_users s
                        (filter (fun x => negb (user_id x =? id)) (users s)))
            end
        end
    | RoleFindUnique name => fun s =>
        match name with
        | VStr n => (inr (find (fun r => String.eqb (role_name r) n) (roles s)), s)
        | _ => (invalid, s)
        end
    | UserProfileFindUnique userId => fun s =>
        (inr (find_profile userId s), s)
    | UserProfileDelete userId => fun s =>
        match find_profile userId s with
        | None => (not_found, s)
        | Some p =>
            (inr p,
             set_userProfiles s
               (filter (fun x => negb (profile_userId x =? userId))
                       (userProfiles s)))
        end
    | UserProfileUpsert userId update create => fun s =>
        match find_profile userId s with
        | Some old =>
            match update_profile old update with
            | None => (invalid, s)
            | Some p =>
                (inr p,
                 set_userProfiles s
                   (map (fun x => if profile_userId x =? userId then p else x)
                        (userProfiles s)))
            end
        | None =>
            match create_profile userId create, find_user userId s with
            | None, _ => (invalid, s)
            | Some _, None => (foreign_key_violation, s)
            | Some p, Some _ =>
                (inr p, set_userProfiles s (userProfiles s ++ [p]))
            end
        end
    | RequestFindMany => fun s => (inr (requests s), s)
    | RequestCreate data => fun s =>
        match data with
        | VObj fields =>
            if known_keys ["userId"; "description"; "status"] fields then
              match assoc "userId" fields, assoc "description" fields,
                    updated_field (assoc "status" fields) "pending" with
              | VNum u, VStr d, Some st =>
                  match find_user u s with
                  | None => (foreign_key_violation, s)
                  | Some _ =>
                      let r := {| request_id := next_request_id s;
                                  request_userId := u;
                                  description := d; status := st |} in
                      (inr r, add_request s r)
                  end
              | _, _, _ => (invalid, s)
              end
            else (invalid, s)
        | _ => (invalid, s)
        end
    | RequestUpdate id data => fun s =>
        match id, data with
        | Some id, VObj fields =>
            match find_request id s with
            | None => (not_found, s)
            | Some old =>
                match update_request old fields with
                | None => (invalid, s)
                | Some r =>
                    match find_user (request_userId r) s with
                    | None => (foreign_key_violation, s)
                    | Some _ =>
                        (inr r,
                         set_requests s
                           (map (fun x => if request_id x =? id then r else x)
                                (requests s)))
                    end
                end
            end
        | _, _ => (invalid, s)
        end
    | RequestDelete id => fun s =>
        match id with
        | None => (invalid, s)
        | Some id =>
            match find_request id s with
            | None => (not_found, s)
            | Some r =>
                (inr r,
                 set_requests s
                   (filter (fun x => negb (request_id x =? id)) (requests s)))
            end
        end
    | RequestDeleteMany userId => fun s =>
        (inr (Z.of_nat (List.length
                          (filter (fun x => request_userId x =? userId)
                                  (requests s)))),
         set_requests s
           (filter (fun x => negb (request_userId x =? userId)) (requests s)))
    | ActivityLogCreate userId action description => fun s =>
        match find_user userId s with
        | None => (foreign_key_violation, s)
        | Some _ =>
            let l := {| log_id := next_log_id s; log_userId := userId;
                        action := action; log_description := description |} in
            (inr l, add_log s l)
        end
    | BcryptHash data rounds => fun s =>
        match data with
        | VStr plain => (inr (bcrypt outside plain rounds), s)
        | _ => (inl (Error "data and salt arguments required"), s)
        end
    | SendMail options mail => fun s => (transport outside options mail, s)
    end.

End Prisma.

(** ** A Joi instance and sample data for concrete runs *)

Module Sample.

Definition quote (s : string) : string :=
  String "034" (s ++ String "034" "").

Definition text_of (t : Joi.ErrType) : string :=
  match t with
  | Joi.any_required => " is required"
  | Joi.any_only => " must be one of the allowed values"
  | Joi.number_base => " must be a number"
  | Joi.number_unsafe => " must be a safe number"
  | Joi.string_base => " must be a string"
  | Joi.string_empty => " is not allowed to be empty"
  | Joi.string_min => " length must be at least the minimum"
  | Joi.string_max => " length must be at most the maximum"
  | Joi.string_alphanum => " must only contain alpha-numeric characters"
  | Joi.string_email => " must be a valid email"
  | Joi.object_base => " must be of type object"
  | Joi.object_unknown => " is not allowed"
  end.

Definition is_digit (c : ascii) : bool :=
  let n := Z.of_nat (nat_of_ascii c) in (48 <=? n) && (n <=? 57).

(** Decimal digit strings only, and an address is anything with an [@]
    inside: enough for the sample payloads. *)
Definition joi : Joi.JoiLib := {|
  Joi.number_of_string s :=
    if negb (String.eqb s "") && Joi.all_chars is_digit s
    then parse_digits 10 s None else None;
  Joi.object_of_string _ := None;
  Joi.is_email s := includes s "@" && negb (startsWith s "@");
  Joi.message d := quote (Joi.detail_key d) ++ text_of (Joi.detail_type d)
|}.

Definition alice : User :=
  {| user_id := 1; username := "alice01"; email := "a@b.com";
     password := "$2b$10$hash-of-longpw123"; roleId := 1 |}.

(** What the creation of [alice01] stores with the toy hash. *)
Definition alice_created : User :=
  {| user_id := 1; username := "alice01"; email := "a@b.com";
     password := "$2b$10$longpw123"; roleId := 1 |}.

Definition alice_profile : UserProfile :=
  {| profile_userId := 1; firstName := "Alice"; lastName := "Liddell";
     phone := "555-0000"; address := "" |}.

Definition printer : Request :=
  {| request_id := 1; request_userId := 1;
     description := "The printer on floor 2 is broken"; status := "pending" |}.

Definition badge : Request :=
  {| request_id := 2; request_userId := 1;
     description := "Please renew my access badge"; status := "completed" |}.

(** The SMTP server refuses every connection. *)
Definition refused (_ : TransportOptions) (_ : MailOptions) : exn + JsValue :=
  inl (Error "connect ECONNREFUSED 127.0.0.1:587").

(** Stands for bcrypt with a fixed salt. *)
Definition toy_hash (plain : string) (rounds : Z) : string :=
  "$2b$" ++ string_of_Z rounds ++ "$" ++ plain.

(** Two roles and nothing else. *)
Definition empty_store : Store :=
  {| users := [];
     roles := [{| role_id := 1; role_name := "user" |};
               {| role_id := 2; role_name := "admin" |}];
     userProfiles := []; requests := []; activityLogs := [];
     next_user_id := 1; next_request_id := 1; next_log_id := 1 |}.

(** One user with a profile and two requests. *)
Definition store : Store :=
  {| users := [alice];
     roles := roles empty_store;
     userProfiles := [alice_profile];
     requests := [printer; badge];
     activityLogs := [];
     next_user_id := 2; next_request_id := 3; next_log_id := 1 |}.

(** One user and no dependent row. *)
Definition single_user_store : Store :=
  {| users := [alice];
     roles := roles empty_store;
     userProfiles := []; requests := []; activityLogs := [];
     next_user_id := 2; next_request_id := 1; next_log_id := 1 |}.

Definition outside : Services :=
  {| bcrypt := toy_hash; transport := refused |}.

Definition backend : Backend Store := Prisma.answer outside.

Definition request (u : string) (query : list (string * string))
           (body : JsValue) : HttpRequest :=
  {| url := u; searchParams := query; json := inr body |}.

Definition env : Mail.Env :=
  {| Mail.SMTP_HOST := Some "127.0.0.1"; Mail.SMTP_PORT := Some "587";
     Mail.SMTP_USER := Some "noreply@app.example";
     Mail.SMTP_PASS := Some "secret" |}.

(** The requests of the scenarios. *)
Definition mail_request : HttpRequest :=
  request "http://localhost:3000/api/mail" []
    (VObj [("to", VStr "bob@b.com"); ("subject", VStr "Welcome");
           ("text", VStr "Hello Bob")]).

Definition delete_user_request : HttpRequest :=
  request "http://localhost:3000/api/users?id=1" [("id", "1")] VNull.

Definition delete_request_request : HttpRequest :=
  request "http://localhost:3000/api/requests?id=2" [("id", "2")] VNull.

Definition create_alice : HttpRequest :=
  request "http://localhost:3000/api/users" []
    (VObj [("username", VStr "alice01"); ("email", VStr "a@b.com");
           ("password", VStr "longpw123"); ("role", VStr "user")]).

Definition get_first_user : HttpRequest :=
  request "http://localhost:3000/api/users?id=1" [("id", "1")] VNull.

Definition get_first_user_item : HttpRequest :=
  request "http://localhost:3000/api/users/1" [] VNull.

End Sample.

(** The response, the final store and the history of a handler run. *)
Definition response {S} (out : (exn + Response) * S * list Event) : exn + Response :=
  fst (fst out).
Definition final {S} (out : (exn + Response) * S * list Event) : S :=
  snd (fst out).
Definition history {S} (out : (exn + Response) * S * list Event) : list Event :=
  snd out.

Definition status_is (code : Z) (r : exn + Response) : Prop :=
  exists resp, r = inr resp /\ res_status resp = code.

(** * Vocabulary of the properties *)

(** The four statuses the statistics count. *)
Definition known_status (r : Request) : Prop :=
  In (status r) ["pending"; "in-progress"; "completed"; "rejected"].

(** The payload has no description of at least ten characters: the key is
    absent, not a string, or a shorter string. *)
Definition lacks_description (fields : list (string * JsValue)) : Prop :=
  forall d, assoc "description" fields = VStr d -> (String.length d < 10)%nat.

(** The outcome of a request mutation, for the three calls that mutate. *)
Definition mutation_result (e : Event) : option (exn + Request) :=
  match e with
  | E_RequestCreate _ r | E_RequestUpdate _ _ r | E_RequestDelete _ r => Some r
  | _ => None
  end.

(** The call that writes an audit entry. *)
Definition is_log_write (e : Event) : bool :=
  match e with
  | E_ActivityLogCreate _ _ _ _ => true
  | _ => false
  end.

(** What the history of a mutating handler has to look like, for the action
    label and the words of the handler.  Every write to the activity log
    comes after a mutation that succeeded and carries the owner of the
    mutated request, the action label and the words followed by the
    identifier of that request; a history with a failed mutation has no
    write to the activity log; and a mutation that succeeded is followed by
    that write and by nothing else. *)
Definition audit_discipline (action words : string) (t : list Event) : Prop :=
  (forall before userId label description r after,
      t = (before ++ E_ActivityLogCreate userId label description r :: after)%list ->
      exists m q,
        In m before /\ mutation_result m = Some (inr q)
        /\ userId = request_userId q
        /\ label = action
        /\ description = words ++ string_of_Z (request_id q))
  /\ (forall m e,
         In m t -> mutation_result m = Some (inl e) ->
         forall l, In l t -> is_log_write l = false)
  /\ (forall m q,
         In m t -> mutation_result m = Some (inr q) ->
         exists r,
           t = [m; E_ActivityLogCreate (request_userId q) action
                     (words ++ string_of_Z (request_id q)) r]).

(** The three shapes a history of such a handler can have. *)
Inductive audited (action words : string) : list Event -> Prop :=
| audited_no_call : audited action words []
| audited_failed m e :
    mutation_result m = Some (inl e) -> audited action words [m]
| audited_logged m q r :
    mutation_result m = Some (inr q) ->
    audited action words
      [m; E_ActivityLogCreate (request_userId q) action
            (words ++ string_of_Z (request_id q)) r].

(** Whether a text occurs in one of the fields of a response body. *)
Definition discloses (resp : Response) (detail : string) : bool :=
  match res_body resp with
  | Some (VObj fields) =>
      existsb (fun kv => match snd kv with
                         | VStr t => includes t detail
                         | _ => false
                         end) fields
  | _ => false
  end.

(** The identifiers of the stored users lie below the next identifier. *)
Definition fresh_ids (s : Store) : Prop :=
  Forall (fun x => user_id x < next_user_id s) (users s).

(** * The credentials sign-in ([authOptions]) *)

Module AuthOptions.

(** Modelled from the spec: a role has a set of permission actions (the
    Prisma schema is not part of the sources). *)
Record Permission : Type := { permission_action : string }.

(** A user as [findUnique] returns it with
    [include: { role: { include: { permissions: true } } }]. *)
Record UserWithPermissions : Type := {
  found_user : User;
  found_role : Role;
  found_permissions : list Permission
}.

(** The submitted form as the library hands it over, [credentials.username]
    and [credentials.password]: a field that was not posted is
    [undefined]. *)
Record Credentials : Type := {
  credentials_username : JsValue;
  credentials_password : JsValue
}.

Section Authorize.

(** The awaited [prisma.user.findUnique({ where: { username } })], which
    may reject, and [bcrypt.compareSync(data, encrypted)], which throws when
    it is not given two strings. *)
Variable findUnique : JsValue -> exn + option UserWithPermissions.
Variable compareSync : JsValue -> string -> exn + bool.

(** [authorize: async (credentials) => ...]: the identity, or [null]. *)
Definition authorize (credentials : Credentials) : exn + option JsValue :=
  match findUnique (credentials_username credentials) with
  | inl e => inl e
  | inr user =>
      match user with
      | Some user =>
          match compareSync (credentials_password credentials)
                            (password (found_user user)) with
          | inl e => inl e
          | inr true =>
              inr (Some
                     (VObj [("id", VNum (user_id (found_user user)));
                            ("username", VStr (username (found_user user)));
                            ("email", VStr (email (found_user user)));
                            ("role",
                             VObj [("name", VStr (role_name (found_role user)));
                                   ("permissions",
                                    VArr (map (fun p => VStr (permission_action p))
                                              (found_permissions user)))])]))
          | inr false => inr None
          end
      | None => inr None
      end
  end.

End Authorize.

(** [session.user] and the other properties of the session object. *)
Record Session : Type := {
  session_user : list (string * JsValue);
  session_rest : list (string * JsValue)
}.

(** [async session({ session, token })]. *)
Definition session (s : Session) (token : list (string * JsValue)) : Session :=
  let user := session_user s in
  let user := set_key "id" (assoc "id" token) user in
  let user := set_key "username" (assoc "username" token) user in
  let user := set_key "email" (assoc "email" token) user in
  let user := set_key "role" (assoc "role" token) user in
  {| session_user := user; session_rest := session_rest s |}.

(** [async jwt({ token, user })]: [user] is [undefined] after the
    sign-in. *)
Definition jwt (token : list (string * JsValue)) (user : JsValue)
  : list (string * JsValue) :=
  if truthy user then
    let token := set_key "id" (get "id" user) token in
    let token := set_key "username" (get "username" user) token in
    let token := set_key "email" (get "email" user) token in
    let token := set_key "role" (get "role" user) token in
    token
  else token.

End AuthOptions.

(** * More vocabulary *)

(** The call was answered, not rejected. *)
Definition succeeded (e : Event) : bool :=
  match e with
  | E_UserFindUnique _ _ (inr _) | E_UserFindMany _ (inr _)
  | E_UserCreate _ (inr _) | E_UserUpdate _ _ (inr _) | E_UserDelete _ (inr _)
  | E_RoleFindUnique _ (inr _) | E_UserProfileFindUnique _ (inr _)
  | E_UserProfileDelete _ (inr _) | E_UserProfileUpsert _ _ _ (inr _)
  | E_RequestFindMany (inr _) | E_RequestCreate _ (inr _)
  | E_RequestUpdate _ _ (inr _) | E_RequestDelete _ (inr _)
  | E_RequestDeleteMany _ (inr _) | E_ActivityLogCreate _ _ _ (inr _)
  | E_BcryptHash _ _ (inr _) | E_SendMail _ _ (inr _) => true
  | _ => false
  end.

(** The error a rejected call threw. *)
Definition rejection (e : Event) : option exn :=
  match e with
  | E_UserFindUnique _ _ (inl x) | E_UserFindMany _ (inl x)
  | E_UserCreate _ (inl x) | E_UserUpdate _ _ (inl x) | E_UserDelete _ (inl x)
  | E_RoleFindUnique _ (inl x) | E_UserProfileFindUnique _ (inl x)
  | E_UserProfileDelete _ (inl x) | E_UserProfileUpsert _ _ _ (inl x)
  | E_RequestFindMany (inl x) | E_RequestCreate _ (inl x)
  | E_RequestUpdate _ _ (inl x) | E_RequestDelete _ (inl x)
  | E_RequestDeleteMany _ (inl x) | E_ActivityLogCreate _ _ _ (inl x)
  | E_BcryptHash _ _ (inl x) | E_SendMail _ _ (inl x) => Some x
  | _ => None
  end.

(** Nothing is called after a rejected call. *)
Fixpoint stops_at_rejection (t : list Event) : bool :=
  match t with
  | [] => true
  | e :: rest =>
      if succeeded e then stops_at_rejection rest
      else match rest with [] => true | _ :: _ => false end
  end.

(** The calls on the users table and to bcrypt. *)
Definition on_users_only (e : Event) : bool :=
  match e with
  | E_UserFindUnique _ _ _ | E_UserFindMany _ _ | E_UserCreate _ _
  | E_UserUpdate _ _ _ | E_UserDelete _ _ | E_BcryptHash _ _ _ => true
  | _ => false
  end.

Definition is_hash (e : Event) : bool :=
  match e with E_BcryptHash _ _ _ => true | _ => false end.

Definition is_upsert (e : Event) : bool :=
  match e with E_UserProfileUpsert _ _ _ _ => true | _ => false end.

Definition is_user_create (e : Event) : bool :=
  match e with E_UserCreate _ _ => true | _ => false end.

(** The username is not one the schema of a creation takes. *)
Definition bad_username (fields : list (string * JsValue)) : Prop :=
  forall u, assoc "username" fields = VStr u ->
            (String.length u < 3)%nat \/ (30 < String.length u)%nat
            \/ Joi.all_chars Joi.is_alphanum_char u = false.

Definition bad_password (fields : list (string * JsValue)) : Prop :=
  forall p, assoc "password" fields = VStr p -> (String.length p < 8)%nat.

Definition bad_role (fields : list (string * JsValue)) : Prop :=
  forall r, assoc "role" fields = VStr r -> r <> "user" /\ r <> "admin".

(** The requests whose status is none of the four the statistics count. *)
Definition other_status (requests : list Request) : Z :=
  Z.of_nat
    (List.length
       (filter (fun r => negb (existsb (String.eqb (status r))
                                       ["pending"; "in-progress"; "completed";
                                        "rejected"]))
               requests)).

(** Nothing is called after a rejected call: a rejected call is the last
    one of the history. *)
Definition nothing_after_rejection (t : list Event) : Prop :=
  forall before e after,
    t = (before ++ e :: after)%list -> succeeded e = false -> after = [].

(** A rejected call of the run is answered with status 500 and the given
    text in [error]. *)
Definition rejection_answered {S} (out : (exn + Response) * S * list Event)
           (text : string) : Prop :=
  forall e, In e (history out) -> succeeded e = false ->
            response out = inr (NextResponse.of_json (error_body text) 500).

(** The handler answered with the status and the text without calling
    anything. *)
Definition answered_without_call {S} (out : (exn + Response) * S * list Event)
           (s : S) (status : Z) (text : string) : Prop :=
  response out = inr (NextResponse.of_json (error_body text) status)
  /\ history out = [] /\ final out = s.


(** The e-mail address is not one the schemas take. *)
Definition bad_email {joi : Joi.JoiLib} (fields : list (string * JsValue)) : Prop :=
  forall m, assoc "email" fields = VStr m -> Joi.is_email m = false.

(** The handler returned a response, with one of the statuses. *)
Definition answers {S} (out : (exn + Response) * S * list Event)
           (statuses : list Z) : Prop :=
  exists resp, response out = inr resp /\ In (res_status resp) statuses.

(** * Scenarios of the further properties *)

Module Scenario.

(** The directory of the sign-in: one administrator. *)
Definition administrator : AuthOptions.UserWithPermissions :=
  {| AuthOptions.found_user := Sample.alice;
     AuthOptions.found_role := {| role_id := 2; role_name := "admin" |};
     AuthOptions.found_permissions :=
       [{| AuthOptions.permission_action := "users:read" |};
        {| AuthOptions.permission_action := "users:write" |}] |}.

(** The lookup rejects a [where] without a username. *)
Definition findUnique (name : JsValue)
  : exn + option AuthOptions.UserWithPermissions :=
  match name with
  | VStr name =>
      if String.eqb name "alice01" then inr (Some administrator) else inr None
  | _ => inl (Error "Argument `where` needs at least one argument.")
  end.

(** Compares with the toy hash of the samples; throws as bcrypt does when
    the data is not a string. *)
Definition compareSync (data : JsValue) (encrypted : string) : exn + bool :=
  match data with
  | VStr data => inr (String.eqb (Sample.toy_hash data 10) encrypted)
  | _ => inl (Error "data and hash arguments required")
  end.

Definition credentials : AuthOptions.Credentials :=
  {| AuthOptions.credentials_username := VStr "alice01";
     AuthOptions.credentials_password := VStr "hash-of-longpw123" |}.

(** The form posted without a password. *)
Definition no_password : AuthOptions.Credentials :=
  {| AuthOptions.credentials_username := VStr "alice01";
     AuthOptions.credentials_password := VUndefined |}.

(** What [authorize] returns for these credentials. *)
Definition identity : JsValue :=
  VObj [("id", VNum 1); ("username", VStr "alice01"); ("email", VStr "a@b.com");
        ("role", VObj [("name", VStr "admin");
                       ("permissions",
                        VArr [VStr "users:read"; VStr "users:write"])])].

(** The token and the session as the library hands them to the callbacks. *)
Definition token : list (string * JsValue) :=
  [("name", VUndefined); ("email", VStr "a@b.com"); ("sub", VStr "1");
   ("iat", VNum 1700000000)].

Definition blank_session : AuthOptions.Session :=
  {| AuthOptions.session_user := [("name", VUndefined); ("email", VStr "a@b.com")];
     AuthOptions.session_rest := [("expires", VStr "2030-01-01T00:00:00.000Z")] |}.

(** A request whose body is not JSON. *)
Definition malformed (u : string) (query : list (string * string)) : HttpRequest :=
  {| url := u; searchParams := query;
     json := inl (Error "Unexpected token < in JSON at position 0") |}.

(** A store in which no role was seeded. *)
Definition no_roles : Store :=
  {| users := []; roles := []; userProfiles := []; requests := [];
     activityLogs := []; next_user_id := 1; next_request_id := 1;
     next_log_id := 1 |}.

End Scenario.

(** * Properties *)

(** ** Programs and runs *)

Lemma run_pbind {S A B} (h : Backend S) (p : Prog A) (f : A -> Prog B) (s : S) :
  run h (pbind p f) s =
  let '(a, s1, t1) := run h p s in
  let '(b, s2, t2) := run h (f a) s1 in
  (b, s2, (t1 ++ t2)%list).
Proof.
  revert s. induction p as [a | X op k IH]; intros s; cbn.
  - destruct (run h (f a) s) as [[b s2] t2]. reflexivity.
  - destruct (h X op s) as [x s1]. rewrite IH.
    destruct (run h (k x) s1) as [[a s2] t1].
    destruct (run h (f a) s2) as [[b s3] t2]. reflexivity.
Qed.

(** One awaited call: the backend is asked once. *)
Lemma run_await {S X} (h : Backend S) (op : apiE X) (s : S) :
  run h (await op) s = (fst (h X op s), snd (h X op s), [event_of op (fst (h X op s))]).
Proof. cbn. destruct (h X op s). reflexivity. Qed.

(** Asks the backend for the outcome of the next call of the run in the
    goal and simplifies. *)
Ltac next_call h :=
  match goal with
  | |- context [h ?X ?op ?s] =>
      let x := fresh "x" in
      let s' := fresh "s" in
      let e := fresh "e" in
      destruct (h X op s) as [[e | x] s'] eqn:?; cbn -[append]
  end.

(** ** The sign-in redirect *)

Lemma redirect_same_prefix (url baseUrl : string) :
  startsWith url baseUrl = true -> Auth.redirect url baseUrl = baseUrl.
Proof. unfold Auth.redirect. intros ->. reflexivity. Qed.

Lemma redirect_other_prefix (url baseUrl : string) :
  startsWith url baseUrl = false -> Auth.redirect url baseUrl = url.
Proof. unfold Auth.redirect. intros ->. reflexivity. Qed.

(** C1: the redirect callback is meant to hand back a caller-supplied URL
    only when it belongs to the application and the application's own page
    otherwise.  The two branches are the other way round: a URL that does
    not start with the base URL is returned unchanged, and a URL of the
    application is replaced by the base URL. *)
Theorem redirect_returns_external_url :
  let baseUrl := "https://app.example" in
  let external := "https://evil.example/phish" in
  let internal := "https://app.example/dashboard" in
  startsWith external baseUrl = false
  /\ Auth.redirect external baseUrl = external
  /\ startsWith internal baseUrl = true
  /\ Auth.redirect internal baseUrl = baseUrl.
Proof. repeat split. Qed.

(** ** Request statistics *)

Lemma count_status_cons (s : string) (r : Request) (rs : list Request) :
  RequestStats.count_status s (r :: rs) =
  (if String.eqb (status r) s then 1 else 0) + RequestStats.count_status s rs.
Proof.
  unfold RequestStats.count_status. cbn [filter].
  destruct (String.eqb (status r) s); cbn [List.length]; lia.
Qed.

Lemma tally_bounded (rs : list Request) :
  RequestStats.count_status "pending" rs
  + RequestStats.count_status "in-progress" rs
  + RequestStats.count_status "completed" rs
  + RequestStats.count_status "rejected" rs
  <= Z.of_nat (List.length rs).
Proof.
  induction rs as [| r rs IH]; [cbn; lia |].
  rewrite !count_status_cons. cbn [List.length]. rewrite Nat2Z.inj_succ.
  destruct (String.eqb_spec (status r) "pending") as [-> |];
    cbn -[Z.add Z.of_nat]; [lia |].
  destruct (String.eqb_spec (status r) "in-progress") as [-> |];
    cbn -[Z.add Z.of_nat]; [lia |].
  destruct (String.eqb_spec (status r) "completed") as [-> |];
    cbn -[Z.add Z.of_nat]; [lia |].
  destruct (String.eqb (status r) "rejected"); lia.
Qed.

Lemma tally_exact (rs : list Request) :
  Forall known_status rs ->
  RequestStats.count_status "pending" rs
  + RequestStats.count_status "in-progress" rs
  + RequestStats.count_status "completed" rs
  + RequestStats.count_status "rejected" rs
  = Z.of_nat (List.length rs).
Proof.
  induction 1 as [| r rs Hr _ IH]; [reflexivity |].
  rewrite !count_status_cons. cbn [List.length]. rewrite Nat2Z.inj_succ.
  unfold known_status in Hr. cbn in Hr.
  destruct Hr as [<- | [<- | [<- | [<- | []]]]]; cbn -[Z.add Z.of_nat]; lia.
Qed.

(** C8: whenever the statistics are computed (the query for all requests
    answered), the five counts of the response satisfy
    pending + inProgress + completed + rejected <= total, with equality
    when every stored request has one of the four known statuses. *)
Theorem stats_counts_bounded {S} (h : Backend S) (s : S) (stored : list Request) :
  history (run h RequestStats.GET s) = [E_RequestFindMany (inr stored)] ->
  exists total pending inProgress completed rejected,
    response (run h RequestStats.GET s) =
      inr (NextResponse.of_json
             (VObj [("total", VNum total); ("pending", VNum pending);
                    ("inProgress", VNum inProgress);
                    ("completed", VNum completed);
                    ("rejected", VNum rejected)]) 200)
    /\ total = Z.of_nat (List.length stored)
    /\ pending + inProgress + completed + rejected <= total
    /\ (Forall known_status stored ->
        pending + inProgress + completed + rejected = total).
Proof.
  unfold RequestStats.GET. cbn.
  destruct (h _ RequestFindMany s) as [[e | rs] s1]; cbn; intros H.
  - discriminate H.
  - injection H as ->.
    do 5 eexists. split; [reflexivity |]. split; [reflexivity |].
    split; [apply tally_bounded | apply tally_exact].
Qed.

Lemma stats_counts_bounded_witness :
  let stored := [Sample.printer; Sample.badge] in
  history (run Sample.backend RequestStats.GET Sample.store)
  = [E_RequestFindMany (inr stored)]
  /\ Forall known_status stored
  /\ exists total pending inProgress completed rejected,
      response (run Sample.backend RequestStats.GET Sample.store) =
        inr (NextResponse.of_json
               (VObj [("total", VNum total); ("pending", VNum pending);
                      ("inProgress", VNum inProgress);
                      ("completed", VNum completed);
                      ("rejected", VNum rejected)]) 200)
      /\ total = 2
      /\ pending + inProgress + completed + rejected <= total
      /\ pending + inProgress + completed + rejected = total.
Proof.
  intros stored.
  assert (Hhistory : history (run Sample.backend RequestStats.GET Sample.store)
                     = [E_RequestFindMany (inr stored)]) by reflexivity.
  assert (Hknown : Forall known_status stored).
  { constructor; [left; reflexivity |].
    constructor; [right; right; left; reflexivity | constructor]. }
  split; [exact Hhistory |]. split; [exact Hknown |].
  destruct (stats_counts_bounded Sample.backend Sample.store stored Hhistory)
    as (total & pending & inProgress & completed & rejected
        & Hresp & Htotal & Hle & Heq).
  exists total, pending, inProgress, completed, rejected.
  split; [exact Hresp |]. split; [exact Htotal |].
  split; [exact Hle | exact (Heq Hknown)].
Defined.

(** ** Validation of request payloads *)

(** An error under one key of the schema is an error of the object, with
    every choice of options. *)
Lemma validate_keys_error {joi : Joi.JoiLib} (abort : bool)
      (schema : Joi.ObjectSchema) (input out : list (string * JsValue))
      (k : string) (sch : Joi.KeySchema) :
  In (k, sch) schema ->
  fst (Joi.validate_key abort sch (assoc k input)) <> [] ->
  fst (Joi.validate_keys abort schema input out) <> [].
Proof.
  revert out. induction schema as [| [k' sch'] rest IH]; intros out Hin Herr.
  - destruct Hin.
  - cbn [Joi.validate_keys].
    destruct (Joi.validate_key abort sch' (assoc k' input)) as [errs v] eqn:E.
    destruct errs as [| e errs]; cbn [map].
    + destruct Hin as [Heq | Hin].
      * injection Heq as -> ->. rewrite E in Herr. contradiction.
      * apply IH; assumption.
    + destruct abort; [cbn; discriminate |].
      destruct (Joi.validate_keys false rest input _). cbn. discriminate.
Qed.

Lemma validate_object_error {joi : Joi.JoiLib} (opts : Joi.ValidationOptions)
      (schema : Joi.ObjectSchema) (input : list (string * JsValue))
      (k : string) (sch : Joi.KeySchema) :
  In (k, sch) schema ->
  fst (Joi.validate_key (Joi.abortEarly opts) sch (assoc k input)) <> [] ->
  Joi.details (Joi.validate schema opts (VObj input)) <> [].
Proof.
  intros Hin Herr. cbn [Joi.validate]. unfold Joi.validate_object.
  pose proof (validate_keys_error (Joi.abortEarly opts) schema input input
                k sch Hin Herr) as H.
  destruct (Joi.validate_keys _ schema input input) as [ds out].
  cbn [fst] in H. destruct ds as [| d ds]; [contradiction |].
  destruct (Joi.abortEarly opts); cbn; discriminate.
Qed.

(** A required key that is absent is an error. *)
Lemma required_key_missing {joi : Joi.JoiLib} (abort : bool)
      (sch : Joi.KeySchema) :
  match sch with
  | Joi.number p | Joi.string_ _ _ _ p => p = Joi.required
  end ->
  fst (Joi.validate_key abort sch VUndefined) <> [].
Proof.
  destruct sch as [p | rules valid [d |] p]; intros ->; cbn; discriminate.
Qed.

(** A payload without [userId], or without a description of at least ten
    characters, has a validation error under every choice of options. *)
Lemma requestSchema_needs_owner_and_description
      {joi : Joi.JoiLib} (opts : Joi.ValidationOptions)
      (fields : list (string * JsValue)) :
  assoc "userId" fields = VUndefined \/ lacks_description fields ->
  Joi.details (Joi.validate Requests.requestSchema opts (VObj fields)) <> [].
Proof.
  intros [H | H].
  - apply validate_object_error with (k := "userId") (sch := Joi.number Joi.required).
    + left. reflexivity.
    + rewrite H. apply required_key_missing. reflexivity.
  - apply validate_object_error
      with (k := "description")
           (sch := Joi.string_ [Joi.min 10] [] None Joi.required).
    + right. left. reflexivity.
    + unfold lacks_description in H.
      destruct (assoc "description" fields) eqn:E; cbn -[Nat.leb];
        try discriminate.
      specialize (H s eq_refl).
      destruct (String.eqb s ""); [discriminate |].
      destruct (Nat.leb_spec 10 (String.length s)); [lia |].
      destruct (Joi.abortEarly opts); discriminate.
Qed.

(** C10: an update of a request is validated against the schema of the
    creation, so a JSON object payload that omits [userId], or that has no
    description of at least ten characters, is answered with 400 before any
    database call is made, whatever else it contains. *)
Theorem put_requires_full_payload
        {joi : Joi.JoiLib} {S} (h : Backend S) (s : S)
        (req : HttpRequest) (fields : list (string * JsValue)) :
  json req = inr (VObj fields) ->
  assoc "userId" fields = VUndefined \/ lacks_description fields ->
  exists errors,
    errors <> []
    /\ response (run h (Requests.PUT req) s)
       = inr (NextResponse.of_json
                (error_body (join ", " (map Joi.message errors))) 400)
    /\ history (run h (Requests.PUT req) s) = []
    /\ final (run h (Requests.PUT req) s) = s.
Proof.
  intros Hbody H. unfold Requests.PUT. rewrite Hbody. cbn.
  pose proof (requestSchema_needs_owner_and_description
                {| Joi.allowUnknown := true; Joi.abortEarly := false |}
                fields H) as Hd.
  cbn [Joi.validate] in Hd.
  destruct (Joi.details _) as [| d ds]; [contradiction |]. cbn.
  exists (d :: ds). repeat split. discriminate.
Qed.

Lemma put_requires_full_payload_witness :
  let fields := [("status", VStr "completed")] in
  let req := Sample.request "http://localhost:3000/api/requests?id=1"
               [("id", "1")] (VObj fields) in
  let out := run Sample.backend (@Requests.PUT Sample.joi req) Sample.store in
  json req = inr (VObj fields)
  /\ (assoc "userId" fields = VUndefined \/ lacks_description fields)
  /\ exists errors,
      errors <> []
      /\ response out
         = inr (NextResponse.of_json
                  (error_body (join ", " (map (@Joi.message Sample.joi) errors)))
                  400)
      /\ history out = []
      /\ final out = Sample.store.
Proof.
  intros fields req out.
  assert (Hbody : json req = inr (VObj fields)) by reflexivity.
  assert (Hlacks : assoc "userId" fields = VUndefined \/ lacks_description fields)
    by (left; reflexivity).
  split; [exact Hbody |]. split; [exact Hlacks |].
  exact (@put_requires_full_payload Sample.joi Store Sample.backend Sample.store
           req fields Hbody Hlacks).
Defined.

(** The three statuses of the schema are accepted. *)
Lemma requestSchema_accepts_listed_status {joi : Joi.JoiLib} (st : string) :
  In st ["pending"; "in-progress"; "completed"] ->
  Joi.details
    (Joi.validate Requests.requestSchema Joi.defaults
       (VObj [("userId", VNum 1);
              ("description", VStr "The printer is broken");
              ("status", VStr st)])) = [].
Proof.
  cbn. intros [<- | [<- | [<- | []]]]; reflexivity.
Qed.

(** Whatever else the payload has, the status [rejected] is an error. *)
Lemma requestSchema_refuses_rejected
      {joi : Joi.JoiLib} (opts : Joi.ValidationOptions)
      (fields : list (string * JsValue)) :
  assoc "status" fields = VStr "rejected" ->
  Joi.details (Joi.validate Requests.requestSchema opts (VObj fields)) <> [].
Proof.
  intros H.
  apply validate_object_error
    with (k := "status")
         (sch := Joi.string_ [] ["pending"; "in-progress"; "completed"]
                             (Some "pending") Joi.optional).
  - right. right. left. reflexivity.
  - rewrite H. cbn. destruct (Joi.abortEarly opts); discriminate.
Qed.

(** C4: the status enumeration has four values, and a creation payload with
    any of them is meant to pass validation.  The schema lists only three:
    a payload with status [rejected] is answered with 400 and no row is
    created. *)
Theorem post_refuses_status_rejected
        {joi : Joi.JoiLib} {S} (h : Backend S) (s : S)
        (u : string) (query : list (string * string)) :
  let req := Sample.request u query
               (VObj [("userId", VNum 1);
                      ("description", VStr "The printer is broken");
                      ("status", VStr "rejected")]) in
  response (run h (Requests.POST req) s) =
    inr (NextResponse.of_json
           (error_body (Joi.message (Joi.mkDetail "status" Joi.any_only))) 400)
  /\ history (run h (Requests.POST req) s) = []
  /\ final (run h (Requests.POST req) s) = s.
Proof. cbn. repeat split. Qed.

(** ** The audit trail of request mutations *)

Lemma audited_discipline (action words : string) (t : list Event) :
  audited action words t -> audit_discipline action words t.
Proof.
  intros [| m e Hm | m q r Hm]; split; [| split | | split | | split].
  - intros [| x before] ? ? ? ? ? H; discriminate H.
  - intros ? ? [].
  - intros ? ? [].
  - intros [| x [| y before]] ? ? ? ? ? H; try discriminate H.
    injection H as -> _. discriminate Hm.
  - intros m' e' [<- | []] _ l [<- | []].
    destruct m; try discriminate Hm; reflexivity.
  - intros m' q' [<- | []] Hm'. rewrite Hm in Hm'. discriminate Hm'.
  - intros [| x [| y [| z before]]] u a' d' r' after H; try discriminate H.
    + injection H as -> _. discriminate Hm.
    + injection H as Hx Hu Ha Hd Hr Hafter. subst u a' d'.
      exists m, q. repeat split; [left; symmetry; exact Hx | assumption].
  - intros m' e' Hin Hm' l Hl. exfalso.
    destruct Hin as [<- | [<- | []]].
    + rewrite Hm in Hm'. discriminate Hm'.
    + discriminate Hm'.
  - intros m' q' [<- | [<- | []]] Hm'; [| discriminate Hm'].
    rewrite Hm in Hm'. injection Hm' as <-. exists r. reflexivity.
Qed.

(** Closes the goal [audited action words t] for the history of a run whose
    calls have all been answered. *)
Ltac audited_shape :=
  first
    [ apply audited_no_call
    | eapply audited_failed; reflexivity
    | eapply audited_logged; reflexivity ].

Lemma post_history_audited {joi : Joi.JoiLib} {S} (h : Backend S) (s : S)
      (req : HttpRequest) :
  audited "CREATE" "Created a new request with ID "
    (history (run h (Requests.POST req) s)).
Proof.
  unfold Requests.POST.
  destruct (json req) as [e | body]; cbn -[append]; [audited_shape |].
  destruct (Joi.details _) as [| d ds]; cbn -[append]; [| audited_shape].
  next_call h; [audited_shape |].
  next_call h; audited_shape.
Qed.

Lemma put_history_audited {joi : Joi.JoiLib} {S} (h : Backend S) (s : S)
      (req : HttpRequest) :
  audited "UPDATE" "Updated request with ID "
    (history (run h (Requests.PUT req) s)).
Proof.
  unfold Requests.PUT.
  destruct (json req) as [e | body]; cbn -[append]; [audited_shape |].
  destruct (Joi.details _) as [| d ds]; cbn -[append]; [| audited_shape].
  next_call h; [audited_shape |].
  next_call h; audited_shape.
Qed.

Lemma delete_history_audited {S} (h : Backend S) (s : S) (req : HttpRequest) :
  audited "DELETE" "Deleted request with ID "
    (history (run h (Requests.DELETE req) s)).
Proof.
  unfold Requests.DELETE. cbn -[append].
  next_call h; [audited_shape |].
  next_call h; audited_shape.
Qed.

(** C9: in the three mutating handlers of the requests collection, against
    every backend, the activity log is written only after the mutation has
    succeeded, and no entry is written when the mutation fails; a mutation
    that succeeded is followed, in the same invocation, by exactly one
    write to the activity log, and that entry carries the owning user of
    the mutated request, the action label of the handler and the text of
    the handler ending with the identifier of the request. *)
Theorem log_follows_successful_mutation
        {joi : Joi.JoiLib} {S} (h : Backend S) (s : S) (req : HttpRequest) :
  audit_discipline "CREATE" "Created a new request with ID "
    (history (run h (Requests.POST req) s))
  /\ audit_discipline "UPDATE" "Updated request with ID "
       (history (run h (Requests.PUT req) s))
  /\ audit_discipline "DELETE" "Deleted request with ID "
       (history (run h (Requests.DELETE req) s)).
Proof.
  split; [| split]; apply audited_discipline.
  - apply post_history_audited.
  - apply put_history_audited.
  - apply delete_history_audited.
Qed.

Lemma log_follows_successful_mutation_witness :
  let req := Sample.request "http://localhost:3000/api/requests" []
               (VObj [("userId", VNum 1);
                      ("description", VStr "The printer is broken again")]) in
  let out := run Sample.backend (@Requests.POST Sample.joi req) Sample.store in
  let q := {| request_id := 3; request_userId := 1;
              description := "The printer is broken again";
              status := "pending" |} in
  let m := E_RequestCreate
             (VObj [("userId", VNum 1);
                    ("description", VStr "The printer is broken again");
                    ("status", VStr "pending")])
             (inr q) in
  In m (history out)
  /\ mutation_result m = Some (inr q)
  /\ exists r,
      history out
      = [m; E_ActivityLogCreate 1 "CREATE" "Created a new request with ID 3" r].
Proof.
  intros req out q m.
  assert (Hin : In m (history out)) by (left; reflexivity).
  assert (Hm : mutation_result m = Some (inr q)) by reflexivity.
  split; [exact Hin |]. split; [exact Hm |].
  destruct (@log_follows_successful_mutation Sample.joi Store Sample.backend
              Sample.store req) as [(_ & _ & Hwritten) _].
  exact (Hwritten m q Hin Hm).
Defined.

Example post_history_sample :
  let req := Sample.request "http://localhost:3000/api/requests" []
               (VObj [("userId", VNum 1);
                      ("description", VStr "The printer is broken again")]) in
  let out := run Sample.backend (@Requests.POST Sample.joi req) Sample.store in
  status_is 201 (response out)
  /\ activityLogs (final out)
     = [{| log_id := 1; log_userId := 1; action := "CREATE";
           log_description := "Created a new request with ID 3" |}]
  /\ map is_log_write (history out) = [false; true].
Proof. repeat split. eexists. split; reflexivity. Qed.

(** ** Deleting a user *)

(** The users collection handler removes the dependents first: when the
    user row is deleted, the history is the profile lookup, the profile
    deletion if there was a profile, the deletion of all requests of the
    user and only then the deletion of the user, each of them answered. *)
Lemma collection_delete_order {S} (h : Backend S) (s : S) (req : HttpRequest)
      (id : string) (userId : Z) (u : User) :
  Users.given (searchParams_get "id" (searchParams req)) = Some id ->
  parseInt id = Some userId ->
  In (E_UserDelete (Some userId) (inr u)) (history (run h (Users.DELETE req) s)) ->
  exists (profile : option UserProfile) (removal : list Event) (n : Z),
    history (run h (Users.DELETE req) s)
    = (E_UserProfileFindUnique userId (inr profile)
         :: removal
         ++ [E_RequestDeleteMany userId (inr n);
             E_UserDelete (Some userId) (inr u)])%list
    /\ match profile with
       | Some _ => exists gone, removal = [E_UserProfileDelete userId (inr gone)]
       | None => removal = []
       end
    /\ response (run h (Users.DELETE req) s) = inr {| res_status := 204; res_body := None |}.
Proof.
  intros Hid Hparse. unfold Users.DELETE. rewrite Hid, Hparse. cbn.
  next_call h.
  { intros [H | []]. discriminate H. }
  destruct x as [p |]; cbn.
  - next_call h.
    { intros [H | [H | []]]; discriminate H. }
    next_call h.
    { intros [H | [H | [H | []]]]; discriminate H. }
    next_call h.
    { intros [H | [H | [H | [H | []]]]]; discriminate H. }
    intros [H | [H | [H | [H | []]]]]; try discriminate H.
    injection H as ->.
    exists (Some p), [E_UserProfileDelete userId (inr x)], x0.
    split; [reflexivity |]. split; [exists x; reflexivity | reflexivity].
  - next_call h.
    { intros [H | [H | []]]; discriminate H. }
    next_call h.
    { intros [H | [H | [H | []]]]; discriminate H. }
    intros [H | [H | [H | []]]]; try discriminate H.
    injection H as ->.
    exists None, [], x. repeat split.
Qed.

Example collection_delete_sample :
  let req := Sample.request "http://localhost:3000/api/users?id=1"
               [("id", "1")] VNull in
  let out := run Sample.backend (Users.DELETE req) Sample.store in
  response out = inr {| res_status := 204; res_body := None |}
  /\ history out
     = [E_UserProfileFindUnique 1 (inr (Some Sample.alice_profile));
        E_UserProfileDelete 1 (inr Sample.alice_profile);
        E_RequestDeleteMany 1 (inr 2);
        E_UserDelete (Some 1) (inr Sample.alice)]
  /\ users (final out) = [] /\ userProfiles (final out) = []
  /\ requests (final out) = [].
Proof. repeat split. Qed.

(** C2: a deletion of a user is meant to remove the profile and the
    requests of the user before the user row, as the users collection
    handler does.  The handler of one user does not: against every backend
    its only call is the deletion of the user row, and on a store without
    cascade a user with a profile and two requests is not deleted at
    all. *)
Theorem item_delete_skips_dependents :
  (forall S (h : Backend S) (s : S) (req : HttpRequest),
      exists r, history (run h (UserItem.DELETE req) s)
                = [E_UserDelete (parseInt (split_pop (url req))) r])
  /\ let req := Sample.request "http://localhost:3000/api/users/1" [] VNull in
     let out := run Sample.backend (UserItem.DELETE req) Sample.store in
     response out
     = inr (NextResponse.of_json (error_body "Error deleting user") 500)
     /\ history out = [E_UserDelete (Some 1) Prisma.foreign_key_violation]
     /\ final out = Sample.store.
Proof.
  split.
  - intros S h s req. unfold UserItem.DELETE. cbn.
    destruct (h _ (UserDelete (parseInt (split_pop (url req)))) s) as [[e | u] s1];
      cbn; eexists; reflexivity.
  - repeat split.
Qed.

(** ** Updating a user *)

(** The users collection handler takes a payload of profile fields only. *)
Example collection_put_sample :
  let req := Sample.request "http://localhost:3000/api/users?id=1"
               [("id", "1")] (VObj [("phone", VStr "555-1234")]) in
  let out := run Sample.backend (@Users.PUT Sample.joi req) Sample.store in
  response out = inr (NextResponse.of_json (json_of_user Sample.alice) 200)
  /\ userProfiles (final out)
     = [{| profile_userId := 1; firstName := "Alice"; lastName := "Liddell";
           phone := "555-1234"; address := "" |}]
  /\ users (final out) = [Sample.alice].
Proof. repeat split. Qed.

(** C3: an update of a user is meant to take a partial payload, as the
    users collection handler does.  The schema of the handler of one user
    requires username, e-mail address and password: a payload with only a
    profile field is answered with 400, with one error for each of the
    three, and nothing is updated. *)
Theorem item_put_refuses_profile_only_payload
        {joi : Joi.JoiLib} {S} (h : Backend S) (s : S)
        (u : string) (query : list (string * string)) :
  let req := Sample.request u query (VObj [("phone", VStr "555-1234")]) in
  response (run h (UserItem.PUT req) s)
  = inr (NextResponse.of_json
           (error_body
              (join ", "
                 (map Joi.message
                    [Joi.mkDetail "username" Joi.any_required;
                     Joi.mkDetail "email" Joi.any_required;
                     Joi.mkDetail "password" Joi.any_required])))
           400)
  /\ history (run h (UserItem.PUT req) s) = []
  /\ final (run h (UserItem.PUT req) s) = s.
Proof. cbn. repeat split. Qed.

(** ** The mail relay *)

(** C5 (as amended): when the transport fails, the mail relay answers 500
    with the fixed text in [error] and the message of the transport's error
    in [details]. *)
Theorem mail_failure_response {S} (h : Backend S) (s : S) (env : Mail.Env)
        (req : HttpRequest) (options : TransportOptions) (mail : MailOptions)
        (failure : exn) :
  In (E_SendMail options mail (inl failure))
     (history (run h (Mail.POST env req) s)) ->
  response (run h (Mail.POST env req) s)
  = inr (NextResponse.of_json
           (VObj [("error", VStr "Error al enviar el correo");
                  ("details", VStr (error_message failure))])
           500).
Proof.
  unfold Mail.POST. destruct (json req) as [e | body]; cbn; [intros [] |].
  destruct (Mail.destructure body) as [e | obj]; cbn; [intros [] |].
  destruct (_ || _); cbn; [intros [] |].
  next_call h.
  - intros [H | []]. injection H as _ _ ->. reflexivity.
  - intros [H | []]. discriminate H.
Qed.

Lemma mail_failure_response_witness :
  let options := {| host := Some "127.0.0.1"; port := Some 587; secure := false;
                    auth_user := Some "noreply@app.example";
                    auth_pass := Some "secret" |} in
  let mail := {| from := Some "noreply@app.example"; to := VStr "bob@b.com";
                 subject := VStr "Welcome"; text := VStr "Hello Bob" |} in
  let failure := Error "connect ECONNREFUSED 127.0.0.1:587" in
  let out := run Sample.backend (Mail.POST Sample.env Sample.mail_request)
               Sample.store in
  In (E_SendMail options mail (inl failure)) (history out)
  /\ response out
     = inr (NextResponse.of_json
              (VObj [("error", VStr "Error al enviar el correo");
                     ("details", VStr "connect ECONNREFUSED 127.0.0.1:587")])
              500).
Proof.
  intros options mail failure out.
  assert (Hin : In (E_SendMail options mail (inl failure)) (history out))
    by (left; reflexivity).
  split; [exact Hin |].
  exact (@mail_failure_response Store Sample.backend Sample.store Sample.env
           Sample.mail_request options mail failure Hin).
Defined.

(** C5 as stated does not hold: the message of the transport's error is in
    the response. *)
Lemma mail_failure_discloses_detail :
  let out := run Sample.backend (Mail.POST Sample.env Sample.mail_request) Sample.store in
  exists options mail resp,
    history out
    = [E_SendMail options mail (inl (Error "connect ECONNREFUSED 127.0.0.1:587"))]
    /\ response out = inr resp
    /\ res_status resp = 500
    /\ discloses resp "connect ECONNREFUSED 127.0.0.1:587" = true.
Proof. do 3 eexists. repeat split. Qed.

(** ** Responses to deletions *)

(** C7 (as amended): a deletion of a user through the users collection
    handler that succeeds is answered with 204 and no body; a deletion of a
    request that succeeds, and whose audit entry is written, is answered
    with 200 and an empty JSON object. *)
Theorem deletion_responses {S} (h : Backend S) (s : S) (req : HttpRequest) :
  (forall id userId u,
      Users.given (searchParams_get "id" (searchParams req)) = Some id ->
      parseInt id = Some userId ->
      In (E_UserDelete (Some userId) (inr u))
         (history (run h (Users.DELETE req) s)) ->
      response (run h (Users.DELETE req) s)
      = inr {| res_status := 204; res_body := None |})
  /\ (forall id q userId action description entry,
         In (E_RequestDelete id (inr q))
            (history (run h (Requests.DELETE req) s)) ->
         In (E_ActivityLogCreate userId action description (inr entry))
            (history (run h (Requests.DELETE req) s)) ->
         response (run h (Requests.DELETE req) s)
         = inr {| res_status := 200; res_body := Some (VObj []) |}).
Proof.
  split.
  - intros id userId u Hid Hparse Hin.
    destruct (collection_delete_order h s req id userId u Hid Hparse Hin)
      as (p & d & n & _ & _ & H).
    exact H.
  - intros id q userId a d entry. unfold Requests.DELETE. cbn -[append].
    next_call h.
    { intros [H | []]. discriminate H. }
    next_call h.
    + intros _ [H | [H | []]]; discriminate H.
    + intros _ _. reflexivity.
Qed.

Lemma deletion_responses_witness :
  let user_out := run Sample.backend (Users.DELETE Sample.delete_user_request)
                    Sample.store in
  let request_out := run Sample.backend
                       (Requests.DELETE Sample.delete_request_request)
                       Sample.store in
  let entry := {| log_id := 1; log_userId := 1; action := "DELETE";
                  log_description := "Deleted request with ID 2" |} in
  (Users.given (searchParams_get "id" (searchParams Sample.delete_user_request))
   = Some "1"
   /\ parseInt "1" = Some 1
   /\ In (E_UserDelete (Some 1) (inr Sample.alice)) (history user_out)
   /\ response user_out = inr {| res_status := 204; res_body := None |})
  /\ (In (E_RequestDelete (Some 2) (inr Sample.badge)) (history request_out)
      /\ In (E_ActivityLogCreate 1 "DELETE" "Deleted request with ID 2" (inr entry))
            (history request_out)
      /\ response request_out
         = inr {| res_status := 200; res_body := Some (VObj []) |}).
Proof.
  intros user_out request_out entry.
  destruct (deletion_responses Sample.backend Sample.store
              Sample.delete_user_request) as [Huser _].
  destruct (deletion_responses Sample.backend Sample.store
              Sample.delete_request_request) as [_ Hrequest].
  assert (Hdeleted : In (E_UserDelete (Some 1) (inr Sample.alice))
                        (history user_out))
    by (right; right; right; left; reflexivity).
  assert (Hremoved : In (E_RequestDelete (Some 2) (inr Sample.badge))
                        (history request_out))
    by (left; reflexivity).
  assert (Hlogged : In (E_ActivityLogCreate 1 "DELETE"
                          "Deleted request with ID 2" (inr entry))
                       (history request_out))
    by (right; left; reflexivity).
  split.
  - split; [reflexivity |]. split; [reflexivity |]. split; [exact Hdeleted |].
    exact (Huser "1" 1 Sample.alice eq_refl eq_refl Hdeleted).
  - split; [exact Hremoved |]. split; [exact Hlogged |].
    exact (Hrequest (Some 2) Sample.badge 1 "DELETE" "Deleted request with ID 2"
             entry Hremoved Hlogged).
Defined.

(** The handler of one user passes [null] as a JSON body together with
    status 204: the response cannot be built, and the deletion that has
    succeeded is answered like a failure. *)
Example item_delete_sample :
  let out := run Sample.backend (UserItem.DELETE Sample.get_first_user_item)
               Sample.single_user_store in
  history out = [E_UserDelete (Some 1) (inr Sample.alice)]
  /\ users (final out) = []
  /\ response out
     = inr (NextResponse.of_json (error_body "Error deleting user") 500).
Proof. repeat split. Qed.

(** C7 as stated does not hold: a request is deleted, the audit entry is
    written, and the answer is 200 with a body. *)
Lemma request_deletion_answers_200 :
  let out := run Sample.backend (Requests.DELETE Sample.delete_request_request)
               Sample.store in
  history out
  = [E_RequestDelete (Some 2) (inr Sample.badge);
     E_ActivityLogCreate 1 "DELETE" "Deleted request with ID 2"
       (inr {| log_id := 1; log_userId := 1; action := "DELETE";
               log_description := "Deleted request with ID 2" |})]
  /\ requests (final out) = [Sample.printer]
  /\ response out = inr {| res_status := 200; res_body := Some (VObj []) |}
  /\ response out <> inr {| res_status := 204; res_body := None |}.
Proof. repeat split. discriminate. Qed.

(** ** Creating a user and reading it back *)

(** Closes a branch in which the response is not the 201 of the
    hypothesis. *)
Ltac not_created :=
  let Hr := fresh in
  let Hs := fresh in
  cbn; intros Hr Hs;
  repeat match type of Hr with
         | context [if ?c then _ else _] => destruct c
         end;
  cbn in Hr; injection Hr as <-; discriminate Hs.

Lemma post_created_inversion {joi : Joi.JoiLib} (outside : Services) (s : Store)
      (req : HttpRequest) (created : Response) :
  response (run (Prisma.answer outside) (Users.POST req) s) = inr created ->
  res_status created = 201 ->
  exists (body : JsValue) (plain name mail : string) (rid : Z) (p : UserProfile),
    let u := {| user_id := next_user_id s; username := name; email := mail;
                password := bcrypt outside plain 10; roleId := rid |} in
    json req = inr body
    /\ get "password" body = VStr plain
    /\ Prisma.find_role rid s <> None
    /\ created = NextResponse.of_json (json_of_user u) 201
    /\ final (run (Prisma.answer outside) (Users.POST req) s) = Prisma.add_user s u p.
Proof.
  unfold Users.POST. destruct (json req) as [e | body]; [not_created |].
  cbn. destruct (Joi.details _) as [| d ds]; [| not_created].
  cbn. destruct (get "password" body) as [| | | | plain | |] eqn:Hpw;
    try not_created.
  cbn. destruct (get "role" body) as [| | | | rolename | |] eqn:Hrole;
    try not_created.
  cbn. destruct (find _ (roles s)) as [roleData |] eqn:Hfind; [| not_created].
  cbn. destruct (get "username" body) as [| | | | name | |]; try not_created.
  destruct (get "email" body) as [| | | | mail | |]; try not_created.
  destruct (Prisma.create_profile _ _) as [p |]; [| not_created].
  destruct (Prisma.taken name mail None s); [not_created |].
  destruct (Prisma.find_role (role_id roleData) s) as [r |] eqn:Hrid;
    [| not_created].
  cbn. intros H _. injection H as <-.
  exists body, plain, name, mail, (role_id roleData), p. cbn.
  split; [reflexivity |]. split; [exact Hpw |].
  split; [rewrite Hrid; discriminate |]. split; reflexivity.
Qed.

Lemma find_user_added (s : Store) (u : User) (p : UserProfile) :
  fresh_ids s -> user_id u = next_user_id s ->
  Prisma.find_user (user_id u) (Prisma.add_user s u p) = Some u.
Proof.
  unfold fresh_ids, Prisma.find_user. cbn [users Prisma.add_user].
  intros Hfresh Hid. rewrite Hid.
  induction Hfresh as [| x xs Hx _ IH]; cbn [find app].
  - rewrite Hid, Z.eqb_refl. reflexivity.
  - destruct (Z.eqb_spec (user_id x) (next_user_id s)) as [E |]; [lia | exact IH].
Qed.

(** A stored user goes into the response with all its columns. *)
Lemma password_of_user_with (x : UserWith) :
  get "password" (json_of_user_with x) = VStr (password (the_user x)).
Proof. reflexivity. Qed.

Lemma collection_get_found {joi : Joi.JoiLib} (outside : Services) (s : Store)
      (lookup : HttpRequest) (id : string) (u : User) :
  Users.given (searchParams_get "id" (searchParams lookup)) = Some id ->
  parseInt id = Some (user_id u) ->
  Prisma.find_user (user_id u) s = Some u ->
  Prisma.find_role (roleId u) s <> None ->
  exists x,
    the_user x = u
    /\ response (run (Prisma.answer outside) (Users.GET lookup) s)
       = inr (NextResponse.of_json (json_of_user_with x) 200).
Proof.
  intros Hid Hparse Hu Hr. unfold Users.GET. rewrite Hid. cbn.
  rewrite Hparse, Hu. unfold Prisma.with_relations.
  destruct (Prisma.find_role (roleId u) s) as [r |]; [| contradiction].
  cbn. eexists. split; [| reflexivity]. reflexivity.
Qed.

Lemma item_get_found (outside : Services) (s : Store)
      (lookup : HttpRequest) (u : User) :
  parseInt (split_pop (url lookup)) = Some (user_id u) ->
  Prisma.find_user (user_id u) s = Some u ->
  Prisma.find_role (roleId u) s <> None ->
  exists x,
    the_user x = u
    /\ response (run (Prisma.answer outside) (UserItem.GET lookup) s)
       = inr (NextResponse.of_json (json_of_user_with x) 200).
Proof.
  intros Hparse Hu Hr. unfold UserItem.GET. cbn.
  rewrite Hparse, Hu. unfold Prisma.with_relations.
  destruct (Prisma.find_role (roleId u) s) as [r |]; [| contradiction].
  cbn. eexists. split; [| reflexivity]. reflexivity.
Qed.

(** C6 (as amended): the record answered by a successful creation of a
    user, and by a later GET of that user through either handler, has a
    [password] field, and its value is the stored hash: what bcrypt made of
    the submitted password. *)
Theorem created_user_carries_password_hash
        {joi : Joi.JoiLib} (outside : Services) (s : Store)
        (req : HttpRequest) (created : Response) :
  fresh_ids s ->
  response (run (Prisma.answer outside) (Users.POST req) s) = inr created ->
  res_status created = 201 ->
  exists (body record : JsValue) (plain : string) (id : Z),
    json req = inr body
    /\ get "password" body = VStr plain
    /\ res_body created = Some record
    /\ get "id" record = VNum id
    /\ get "password" record = VStr (bcrypt outside plain 10)
    /\ forall (lookup : HttpRequest) (found : exn + Response),
         let after := final (run (Prisma.answer outside) (Users.POST req) s) in
         (exists param,
             Users.given (searchParams_get "id" (searchParams lookup)) = Some param
             /\ parseInt param = Some id
             /\ found = response (run (Prisma.answer outside) (Users.GET lookup) after))
         \/ (parseInt (split_pop (url lookup)) = Some id
             /\ found = response (run (Prisma.answer outside) (UserItem.GET lookup) after)) ->
         exists again,
           found = inr (NextResponse.of_json again 200)
           /\ get "id" again = VNum id
           /\ get "password" again = VStr (bcrypt outside plain 10).
Proof.
  intros Hfresh Hresp Hstatus.
  destruct (post_created_inversion outside s req created Hresp Hstatus)
    as (body & plain & name & mail & rid & p & Hbody & Hpw & Hrole & -> & Hfinal).
  set (u := {| user_id := next_user_id s; username := name; email := mail;
               password := bcrypt outside plain 10; roleId := rid |}) in *.
  exists body, (json_of_user u), plain, (user_id u).
  repeat (split; [reflexivity || assumption |]).
  intros lookup found after. subst after. rewrite Hfinal.
  assert (Hu : Prisma.find_user (user_id u) (Prisma.add_user s u p) = Some u)
    by (apply find_user_added; [assumption | reflexivity]).
  assert (Hr : Prisma.find_role (roleId u) (Prisma.add_user s u p) <> None)
    by exact Hrole.
  intros [(param & Hgiven & Hparse & ->) | (Hparse & ->)].
  - destruct (collection_get_found outside _ lookup param u Hgiven Hparse Hu Hr)
      as (x & Hx & ->).
    exists (json_of_user_with x). rewrite password_of_user_with, Hx.
    repeat split. cbn. rewrite Hx. reflexivity.
  - destruct (item_get_found outside _ lookup u Hparse Hu Hr) as (x & Hx & ->).
    exists (json_of_user_with x). rewrite password_of_user_with, Hx.
    repeat split. cbn. rewrite Hx. reflexivity.
Qed.

Lemma created_user_carries_password_hash_witness :
  let post := run Sample.backend (@Users.POST Sample.joi Sample.create_alice)
                Sample.empty_store in
  fresh_ids Sample.empty_store
  /\ response post = inr (NextResponse.of_json (json_of_user Sample.alice_created) 201)
  /\ res_status (NextResponse.of_json (json_of_user Sample.alice_created) 201) = 201
  /\ exists (body record : JsValue) (plain : string) (id : Z),
      json Sample.create_alice = inr body
      /\ get "password" body = VStr plain
      /\ res_body (NextResponse.of_json (json_of_user Sample.alice_created) 201)
         = Some record
      /\ get "id" record = VNum id
      /\ get "password" record = VStr (bcrypt Sample.outside plain 10)
      /\ forall (lookup : HttpRequest) (found : exn + Response),
           let after := final post in
           (exists param,
               Users.given (searchParams_get "id" (searchParams lookup)) = Some param
               /\ parseInt param = Some id
               /\ found = response (run Sample.backend (Users.GET lookup) after))
           \/ (parseInt (split_pop (url lookup)) = Some id
               /\ found = response (run Sample.backend (UserItem.GET lookup) after)) ->
           exists again,
             found = inr (NextResponse.of_json again 200)
             /\ get "id" again = VNum id
             /\ get "password" again = VStr (bcrypt Sample.outside plain 10).
Proof.
  intros post.
  assert (Hfresh : fresh_ids Sample.empty_store) by constructor.
  assert (Hpost : response post
                  = inr (NextResponse.of_json (json_of_user Sample.alice_created) 201))
    by reflexivity.
  assert (Hstatus : res_status (NextResponse.of_json
                                  (json_of_user Sample.alice_created) 201) = 201)
    by reflexivity.
  repeat (split; [assumption |]).
  exact (@created_user_carries_password_hash Sample.joi Sample.outside
           Sample.empty_store Sample.create_alice _ Hfresh Hpost Hstatus).
Defined.

(** C6 as stated does not hold: the record answered by the creation of
    [alice01], and by the GET that follows, has a [password] field, with the
    stored hash in it. *)
Lemma created_user_exposes_password_field :
  let post := run Sample.backend (@Users.POST Sample.joi Sample.create_alice)
                Sample.empty_store in
  let again := run Sample.backend (Users.GET Sample.get_first_user) (final post) in
  let item := run Sample.backend (UserItem.GET Sample.get_first_user_item)
                (final post) in
  exists created found found_item,
    response post = inr (NextResponse.of_json created 201)
    /\ get "username" created = VStr "alice01"
    /\ get "password" created = VStr (password Sample.alice_created)
    /\ get "password" created <> VUndefined
    /\ response again = inr (NextResponse.of_json found 200)
    /\ get "password" found = VStr (password Sample.alice_created)
    /\ get "password" found <> VUndefined
    /\ response item = inr (NextResponse.of_json found_item 200)
    /\ get "password" found_item <> VUndefined
    /\ map password (users (final post)) = [password Sample.alice_created].
Proof.
  do 3 eexists. repeat split; discriminate.
Qed.

(** * Further properties of the handlers *)

(** ** Objects *)

Lemma assoc_set_key (k k' : string) (v : JsValue) (fs : list (string * JsValue)) :
  assoc k (set_key k' v fs) = if String.eqb k k' then v else assoc k fs.
Proof.
  induction fs as [| [k0 v0] rest IH]; cbn.
  - destruct (String.eqb k k'); reflexivity.
  - destruct (String.eqb_spec k' k0) as [-> | Hne]; cbn.
    + destruct (String.eqb k k0); reflexivity.
    + rewrite IH. destruct (String.eqb_spec k k0) as [-> | Hne'].
      * destruct (String.eqb_spec k0 k'); [congruence | reflexivity].
      * reflexivity.
Qed.

(** ** The credentials sign-in *)

(** What a successful [authorize] says about the lookup and the identity. *)
Lemma authorize_inversion
      (findUnique : JsValue -> exn + option AuthOptions.UserWithPermissions)
      (compareSync : JsValue -> string -> exn + bool)
      (credentials : AuthOptions.Credentials) (identity : JsValue) :
  AuthOptions.authorize findUnique compareSync credentials = inr (Some identity) ->
  exists user,
    findUnique (AuthOptions.credentials_username credentials) = inr (Some user)
    /\ compareSync (AuthOptions.credentials_password credentials)
                   (password (AuthOptions.found_user user)) = inr true
    /\ identity
       = VObj [("id", VNum (user_id (AuthOptions.found_user user)));
               ("username", VStr (username (AuthOptions.found_user user)));
               ("email", VStr (email (AuthOptions.found_user user)));
               ("role",
                VObj [("name", VStr (role_name (AuthOptions.found_role user)));
                      ("permissions",
                       VArr (map (fun p => VStr (AuthOptions.permission_action p))
                                 (AuthOptions.found_permissions user)))])].
Proof.
  unfold AuthOptions.authorize.
  destruct (findUnique _) as [e | [user |]]; try discriminate.
  destruct (compareSync _ _) as [e | [|]] eqn:Hmatch; try discriminate.
  intros H. injection H as <-. exists user. repeat split. exact Hmatch.
Qed.

(** X1: [authorize] hands out an identity only for a user found under the
    submitted username whose stored hash matches the submitted password;
    the identity carries the identifier, the username, the e-mail address,
    the role name and the permission actions of that user, and no
    password. *)
Theorem authorize_identity_sound
        (findUnique : JsValue -> exn + option AuthOptions.UserWithPermissions)
        (compareSync : JsValue -> string -> exn + bool)
        (credentials : AuthOptions.Credentials) (identity : JsValue) :
  AuthOptions.authorize findUnique compareSync credentials = inr (Some identity) ->
  exists user,
    findUnique (AuthOptions.credentials_username credentials) = inr (Some user)
    /\ compareSync (AuthOptions.credentials_password credentials)
                   (password (AuthOptions.found_user user)) = inr true
    /\ get "id" identity = VNum (user_id (AuthOptions.found_user user))
    /\ get "username" identity = VStr (username (AuthOptions.found_user user))
    /\ get "email" identity = VStr (email (AuthOptions.found_user user))
    /\ get "name" (get "role" identity)
       = VStr (role_name (AuthOptions.found_role user))
    /\ get "permissions" (get "role" identity)
       = VArr (map (fun p => VStr (AuthOptions.permission_action p))
                   (AuthOptions.found_permissions user))
    /\ get "password" identity = VUndefined.
Proof.
  intros H.
  destruct (authorize_inversion findUnique compareSync credentials identity H)
    as (user & Hfound & Hmatch & ->).
  exists user. repeat split; assumption.
Qed.

Lemma authorize_identity_sound_witness :
  AuthOptions.authorize Scenario.findUnique Scenario.compareSync
    Scenario.credentials = inr (Some Scenario.identity)
  /\ exists user,
      Scenario.findUnique (VStr "alice01") = inr (Some user)
      /\ Scenario.compareSync (VStr "hash-of-longpw123")
                              (password (AuthOptions.found_user user)) = inr true
      /\ get "id" Scenario.identity = VNum (user_id (AuthOptions.found_user user))
      /\ get "username" Scenario.identity
         = VStr (username (AuthOptions.found_user user))
      /\ get "email" Scenario.identity = VStr (email (AuthOptions.found_user user))
      /\ get "name" (get "role" Scenario.identity)
         = VStr (role_name (AuthOptions.found_role user))
      /\ get "permissions" (get "role" Scenario.identity)
         = VArr (map (fun p => VStr (AuthOptions.permission_action p))
                     (AuthOptions.found_permissions user))
      /\ get "password" Scenario.identity = VUndefined.
Proof.
  assert (H : AuthOptions.authorize Scenario.findUnique Scenario.compareSync
                Scenario.credentials = inr (Some Scenario.identity))
    by reflexivity.
  split; [exact H |].
  exact (authorize_identity_sound Scenario.findUnique Scenario.compareSync
           Scenario.credentials Scenario.identity H).
Defined.

(** X2: [authorize] answers [null] exactly when no user has the submitted
    username or the comparison of the submitted password with the stored
    hash says no, the same answer in both cases; it throws exactly when the
    lookup is rejected, or when a user was found and the comparison throws
    (a form posted without a password), with the error of that call. *)
Theorem authorize_refusal
        (findUnique : JsValue -> exn + option AuthOptions.UserWithPermissions)
        (compareSync : JsValue -> string -> exn + bool)
        (credentials : AuthOptions.Credentials) :
  (AuthOptions.authorize findUnique compareSync credentials = inr None
   <-> findUnique (AuthOptions.credentials_username credentials) = inr None
       \/ (exists user,
              findUnique (AuthOptions.credentials_username credentials)
              = inr (Some user)
              /\ compareSync (AuthOptions.credentials_password credentials)
                             (password (AuthOptions.found_user user))
                 = inr false))
  /\ (forall e,
         AuthOptions.authorize findUnique compareSync credentials = inl e
         <-> findUnique (AuthOptions.credentials_username credentials) = inl e
             \/ (exists user,
                    findUnique (AuthOptions.credentials_username credentials)
                    = inr (Some user)
                    /\ compareSync (AuthOptions.credentials_password credentials)
                                   (password (AuthOptions.found_user user))
                       = inl e)).
Proof.
  unfold AuthOptions.authorize.
  destruct (findUnique _) as [e | [user |]].
  - split.
    + split; [discriminate | intros [H | (u & H & _)]; discriminate H].
    + intros e'. split.
      * intros H. injection H as <-. left. reflexivity.
      * intros [H | (u & H & _)]; [| discriminate H].
        injection H as <-. reflexivity.
  - destruct (compareSync _ _) as [e | [|]] eqn:Hmatch.
    + split.
      * split; [discriminate |].
        intros [H | (u & H & Hu)]; [discriminate H |].
        injection H as <-. rewrite Hmatch in Hu. discriminate Hu.
      * intros e'. split.
        -- intros H. injection H as <-. right. exists user.
           split; [reflexivity | exact Hmatch].
        -- intros [H | (u & H & Hu)]; [discriminate H |].
           injection H as <-. rewrite Hmatch in Hu. injection Hu as <-.
           reflexivity.
    + split.
      * split; [discriminate |].
        intros [H | (u & H & Hu)]; [discriminate H |].
        injection H as <-. rewrite Hmatch in Hu. discriminate Hu.
      * intros e'. split; [discriminate |].
        intros [H | (u & H & Hu)]; [discriminate H |].
        injection H as <-. rewrite Hmatch in Hu. discriminate Hu.
    + split.
      * split; [| reflexivity].
        intros _. right. exists user. split; [reflexivity | exact Hmatch].
      * intros e'. split; [discriminate |].
        intros [H | (u & H & Hu)]; [discriminate H |].
        injection H as <-. rewrite Hmatch in Hu. discriminate Hu.
  - split.
    + split; [left; reflexivity | reflexivity].
    + intros e. split; [discriminate |].
      intros [H | (u & H & _)]; discriminate H.
Qed.

(** The form posted without a password, for a user that exists: the
    comparison throws and so does [authorize]. *)
Example authorize_without_password :
  AuthOptions.authorize Scenario.findUnique Scenario.compareSync
    Scenario.no_password
  = inl (Error "data and hash arguments required").
Proof. reflexivity. Qed.

Lemma jwt_assoc (token : list (string * JsValue)) (user : JsValue) (k : string) :
  truthy user = true ->
  assoc k (AuthOptions.jwt token user)
  = if String.eqb k "role" then get "role" user
    else if String.eqb k "email" then get "email" user
    else if String.eqb k "username" then get "username" user
    else if String.eqb k "id" then get "id" user
    else assoc k token.
Proof.
  intros Huser. unfold AuthOptions.jwt. rewrite Huser.
  rewrite !assoc_set_key. reflexivity.
Qed.

Lemma session_assoc (s : AuthOptions.Session) (token : list (string * JsValue))
      (k : string) :
  assoc k (AuthOptions.session_user (AuthOptions.session s token))
  = if String.eqb k "role" then assoc "role" token
    else if String.eqb k "email" then assoc "email" token
    else if String.eqb k "username" then assoc "username" token
    else if String.eqb k "id" then assoc "id" token
    else assoc k (AuthOptions.session_user s).
Proof.
  unfold AuthOptions.session. cbn [AuthOptions.session_user].
  rewrite !assoc_set_key. reflexivity.
Qed.

(** X3: at sign-in the token takes the identifier, the username, the e-mail
    address and the role of the user and keeps every other entry it had; a
    later call, without a user, leaves the token as it is. *)
Theorem jwt_embeds_identity (token : list (string * JsValue)) (user : JsValue) :
  truthy user = true ->
  let issued := AuthOptions.jwt token user in
  assoc "id" issued = get "id" user
  /\ assoc "username" issued = get "username" user
  /\ assoc "email" issued = get "email" user
  /\ assoc "role" issued = get "role" user
  /\ (forall k, k <> "id" -> k <> "username" -> k <> "email" -> k <> "role" ->
                assoc k issued = assoc k token)
  /\ AuthOptions.jwt issued VUndefined = issued.
Proof.
  intros Huser issued. subst issued.
  repeat split; try (rewrite jwt_assoc by assumption; reflexivity).
  intros k H1 H2 H3 H4. rewrite jwt_assoc by assumption.
  destruct (String.eqb_spec k "role"); [contradiction |].
  destruct (String.eqb_spec k "email"); [contradiction |].
  destruct (String.eqb_spec k "username"); [contradiction |].
  destruct (String.eqb_spec k "id"); [contradiction | reflexivity].
Qed.

Lemma jwt_embeds_identity_witness :
  truthy Scenario.identity = true
  /\ let issued := AuthOptions.jwt Scenario.token Scenario.identity in
     assoc "id" issued = get "id" Scenario.identity
     /\ assoc "username" issued = get "username" Scenario.identity
     /\ assoc "email" issued = get "email" Scenario.identity
     /\ assoc "role" issued = get "role" Scenario.identity
     /\ (forall k, k <> "id" -> k <> "username" -> k <> "email" -> k <> "role" ->
                   assoc k issued = assoc k Scenario.token)
     /\ AuthOptions.jwt issued VUndefined = issued.
Proof.
  assert (H : truthy Scenario.identity = true) by reflexivity.
  split; [exact H |].
  exact (jwt_embeds_identity Scenario.token Scenario.identity H).
Defined.

(** X4: the three callbacks together.  After a successful [authorize], the
    token issued by [jwt] and renewed any number of times makes [session]
    expose the identifier, the username, the e-mail address and the role of
    the authenticated user; the other properties of the session are kept
    and no password gets into it. *)
Theorem session_exposes_authenticated_user
        (findUnique : JsValue -> exn + option AuthOptions.UserWithPermissions)
        (compareSync : JsValue -> string -> exn + bool)
        (credentials : AuthOptions.Credentials) (identity : JsValue)
        (token : list (string * JsValue)) (s : AuthOptions.Session)
        (renewals : nat) :
  AuthOptions.authorize findUnique compareSync credentials = inr (Some identity) ->
  let issued := AuthOptions.jwt token identity in
  let renewed := Nat.iter renewals (fun t => AuthOptions.jwt t VUndefined) issued in
  let shown := AuthOptions.session s renewed in
  exists user,
    findUnique (AuthOptions.credentials_username credentials) = inr (Some user)
    /\ assoc "id" (AuthOptions.session_user shown)
       = VNum (user_id (AuthOptions.found_user user))
    /\ assoc "username" (AuthOptions.session_user shown)
       = VStr (username (AuthOptions.found_user user))
    /\ assoc "email" (AuthOptions.session_user shown)
       = VStr (email (AuthOptions.found_user user))
    /\ get "name" (assoc "role" (AuthOptions.session_user shown))
       = VStr (role_name (AuthOptions.found_role user))
    /\ (forall k, k <> "id" -> k <> "username" -> k <> "email" -> k <> "role" ->
                  assoc k (AuthOptions.session_user shown)
                  = assoc k (AuthOptions.session_user s))
    /\ AuthOptions.session_rest shown = AuthOptions.session_rest s.
Proof.
  intros Hauth issued renewed shown.
  destruct (authorize_inversion findUnique compareSync credentials identity Hauth)
    as (user & Hfound & _ & Hidentity).
  assert (Htruthy : truthy identity = true) by (rewrite Hidentity; reflexivity).
  assert (Hrenewed : renewed = issued).
  { subst renewed. induction renewals as [| n IH]; [reflexivity |].
    rewrite Nat.iter_succ, IH. reflexivity. }
  exists user. subst shown. rewrite Hrenewed. subst issued.
  split; [exact Hfound |].
  rewrite !session_assoc. cbn [String.eqb Ascii.eqb Bool.eqb].
  rewrite !jwt_assoc by assumption. cbn [String.eqb Ascii.eqb Bool.eqb].
  rewrite Hidentity.
  repeat split.
  intros k H1 H2 H3 H4. rewrite session_assoc.
  destruct (String.eqb_spec k "role"); [contradiction |].
  destruct (String.eqb_spec k "email"); [contradiction |].
  destruct (String.eqb_spec k "username"); [contradiction |].
  destruct (String.eqb_spec k "id"); [contradiction | reflexivity].
Qed.

Lemma session_exposes_authenticated_user_witness :
  AuthOptions.authorize Scenario.findUnique Scenario.compareSync
    Scenario.credentials = inr (Some Scenario.identity)
  /\ let issued := AuthOptions.jwt Scenario.token Scenario.identity in
     let renewed := Nat.iter 3 (fun t => AuthOptions.jwt t VUndefined) issued in
     let shown := AuthOptions.session Scenario.blank_session renewed in
     exists user,
       Scenario.findUnique (VStr "alice01") = inr (Some user)
       /\ assoc "id" (AuthOptions.session_user shown)
          = VNum (user_id (AuthOptions.found_user user))
       /\ assoc "username" (AuthOptions.session_user shown)
          = VStr (username (AuthOptions.found_user user))
       /\ assoc "email" (AuthOptions.session_user shown)
          = VStr (email (AuthOptions.found_user user))
       /\ get "name" (assoc "role" (AuthOptions.session_user shown))
          = VStr (role_name (AuthOptions.found_role user))
       /\ (forall k, k <> "id" -> k <> "username" -> k <> "email" -> k <> "role" ->
                     assoc k (AuthOptions.session_user shown)
                     = assoc k (AuthOptions.session_user Scenario.blank_session))
       /\ AuthOptions.session_rest shown
          = AuthOptions.session_rest Scenario.blank_session.
Proof.
  assert (H : AuthOptions.authorize Scenario.findUnique Scenario.compareSync
                Scenario.credentials = inr (Some Scenario.identity))
    by reflexivity.
  split; [exact H |].
  exact (session_exposes_authenticated_user Scenario.findUnique
           Scenario.compareSync Scenario.credentials Scenario.identity
           Scenario.token Scenario.blank_session 3 H).
Defined.

(** ** Rejected calls *)

Lemma stops_at_rejection_sound (t : list Event) :
  stops_at_rejection t = true -> nothing_after_rejection t.
Proof.
  unfold nothing_after_rejection.
  induction t as [| x t IH]; intros H before e after Heq Hfailed.
  - destruct before; discriminate Heq.
  - destruct before as [| b before]; cbn in Heq; injection Heq as -> ->.
    + cbn in H. rewrite Hfailed in H. destruct after; [reflexivity | discriminate H].
    + cbn in H. destruct (succeeded b).
      * exact (IH H before e after eq_refl Hfailed).
      * destruct before; discriminate H.
Qed.

(** Simplifies a run without unfolding the operations on values. *)
Ltac hsimpl :=
  cbn -[append string_of_Z get assoc truthy js_or set_key Joi.validate
        parseInt parseInt_radix split_pop includes Users.given
        searchParams_get to_string_or join map].

(** One step of a run: the outcome of the next call, or else the cases of
    the next test. *)
Ltac step h :=
  first
    [ match goal with
      | |- context [h ?X ?op ?s] =>
          let x := fresh "x" in
          let s' := fresh "s" in
          let e := fresh "e" in
          destruct (h X op s) as [[e | x] s'] eqn:?; hsimpl
      end
    | match goal with
      | |- context [match ?x with _ => _ end] =>
          lazymatch x with
          | context [run _ _ _] => fail
          | _ => destruct x eqn:?; hsimpl
          end
      end ].

Ltac crack h := hsimpl; repeat step h.

Lemma requests_stop_at_rejection {joi : Joi.JoiLib} {S} (h : Backend S) (s : S)
      (req : HttpRequest) :
  stops_at_rejection (history (run h (Requests.POST req) s)) = true
  /\ stops_at_rejection (history (run h (Requests.PUT req) s)) = true
  /\ stops_at_rejection (history (run h (Requests.DELETE req) s)) = true
  /\ stops_at_rejection (history (run h RequestStats.GET s)) = true.
Proof.
  unfold Requests.POST, Requests.PUT, Requests.DELETE, RequestStats.GET,
    Requests.logActivity.
  repeat split; crack h; reflexivity.
Qed.

Lemma user_item_stops_at_rejection {joi : Joi.JoiLib} {S} (h : Backend S) (s : S)
      (req : HttpRequest) :
  stops_at_rejection (history (run h (UserItem.GET req) s)) = true
  /\ stops_at_rejection (history (run h (UserItem.PUT req) s)) = true
  /\ stops_at_rejection (history (run h (UserItem.DELETE req) s)) = true.
Proof.
  unfold UserItem.GET, UserItem.PUT, UserItem.DELETE.
  repeat split; crack h; reflexivity.
Qed.

Lemma users_stop_at_rejection {joi : Joi.JoiLib} {S} (h : Backend S) (s : S)
      (req : HttpRequest) :
  stops_at_rejection (history (run h (Users.GET req) s)) = true
  /\ stops_at_rejection (history (run h (Users.POST req) s)) = true
  /\ stops_at_rejection (history (run h (Users.PUT req) s)) = true
  /\ stops_at_rejection (history (run h (Users.DELETE req) s)) = true.
Proof.
  unfold Users.GET, Users.POST, Users.PUT, Users.DELETE.
  repeat split; crack h; reflexivity.
Qed.

Lemma mail_stops_at_rejection {S} (h : Backend S) (s : S) (env : Mail.Env)
      (req : HttpRequest) :
  stops_at_rejection (history (run h (Mail.POST env req) s)) = true.
Proof. unfold Mail.POST. crack h; reflexivity. Qed.

(** X5: no handler calls anything after a call was rejected: there is no
    retry, and nothing undoes the calls that had succeeded before. *)
Theorem no_call_after_rejection {joi : Joi.JoiLib} {S} (h : Backend S) (s : S)
        (env : Mail.Env) (req : HttpRequest) :
  nothing_after_rejection (history (run h (Requests.POST req) s))
  /\ nothing_after_rejection (history (run h (Requests.PUT req) s))
  /\ nothing_after_rejection (history (run h (Requests.DELETE req) s))
  /\ nothing_after_rejection (history (run h RequestStats.GET s))
  /\ nothing_after_rejection (history (run h (UserItem.GET req) s))
  /\ nothing_after_rejection (history (run h (UserItem.PUT req) s))
  /\ nothing_after_rejection (history (run h (UserItem.DELETE req) s))
  /\ nothing_after_rejection (history (run h (Users.GET req) s))
  /\ nothing_after_rejection (history (run h (Users.POST req) s))
  /\ nothing_after_rejection (history (run h (Users.PUT req) s))
  /\ nothing_after_rejection (history (run h (Users.DELETE req) s))
  /\ nothing_after_rejection (history (run h (Mail.POST env req) s)).
Proof.
  destruct (requests_stop_at_rejection h s req) as (R1 & R2 & R3 & R4).
  destruct (user_item_stops_at_rejection h s req) as (I1 & I2 & I3).
  destruct (users_stop_at_rejection h s req) as (U1 & U2 & U3 & U4).
  pose proof (mail_stops_at_rejection h s env req) as M.
  repeat (split; [apply stops_at_rejection_sound; assumption |]).
  apply stops_at_rejection_sound; assumption.
Qed.

(** Goes through the calls of a history that is known call by call. *)
Ltac each_call :=
  let e := fresh "e" in
  let Hin := fresh "Hin" in
  let Hfailed := fresh "Hfailed" in
  intros e Hin Hfailed; cbn in Hin;
  repeat (destruct Hin as [<- | Hin];
          [first [discriminate Hfailed | reflexivity] |]);
  try contradiction.

Ltac answered h := unfold rejection_answered; crack h; each_call.

Lemma requests_rejection_answered {joi : Joi.JoiLib} {S} (h : Backend S) (s : S)
      (req : HttpRequest) :
  rejection_answered (run h (Requests.POST req) s) "Error creating request"
  /\ rejection_answered (run h (Requests.PUT req) s) "Error updating request"
  /\ rejection_answered (run h (Requests.DELETE req) s) "Error deleting request"
  /\ rejection_answered (run h RequestStats.GET s) "Failed to fetch request stats".
Proof.
  unfold Requests.POST, Requests.PUT, Requests.DELETE, RequestStats.GET,
    Requests.logActivity.
  split; [| split; [| split]]; answered h.
Qed.

Lemma user_item_rejection_answered {joi : Joi.JoiLib} {S} (h : Backend S) (s : S)
      (req : HttpRequest) :
  rejection_answered (run h (UserItem.GET req) s) "Error fetching user"
  /\ rejection_answered (run h (UserItem.PUT req) s) "Error updating user"
  /\ rejection_answered (run h (UserItem.DELETE req) s) "Error deleting user".
Proof.
  unfold UserItem.GET, UserItem.PUT, UserItem.DELETE.
  split; [| split]; answered h.
Qed.

Lemma users_rejection_answered {joi : Joi.JoiLib} {S} (h : Backend S) (s : S)
      (req : HttpRequest) :
  rejection_answered (run h (Users.GET req) s) "Error fetching user(s)"
  /\ rejection_answered (run h (Users.PUT req) s) "Error updating user"
  /\ rejection_answered (run h (Users.DELETE req) s) "Error deleting user".
Proof.
  unfold Users.GET, Users.PUT, Users.DELETE.
  split; [| split]; answered h.
Qed.

(** X6: when a call is rejected, the handlers of requests, statistics and
    users (the creation of a user apart) answer 500 with their own fixed
    text, whatever the error was: the error itself is not in the
    response. *)
Theorem rejection_gets_generic_500 {joi : Joi.JoiLib} {S} (h : Backend S) (s : S)
        (req : HttpRequest) :
  rejection_answered (run h (Requests.POST req) s) "Error creating request"
  /\ rejection_answered (run h (Requests.PUT req) s) "Error updating request"
  /\ rejection_answered (run h (Requests.DELETE req) s) "Error deleting request"
  /\ rejection_answered (run h RequestStats.GET s) "Failed to fetch request stats"
  /\ rejection_answered (run h (UserItem.GET req) s) "Error fetching user"
  /\ rejection_answered (run h (UserItem.PUT req) s) "Error updating user"
  /\ rejection_answered (run h (UserItem.DELETE req) s) "Error deleting user"
  /\ rejection_answered (run h (Users.GET req) s) "Error fetching user(s)"
  /\ rejection_answered (run h (Users.PUT req) s) "Error updating user"
  /\ rejection_answered (run h (Users.DELETE req) s) "Error deleting user".
Proof.
  destruct (requests_rejection_answered h s req) as (R1 & R2 & R3 & R4).
  destruct (user_item_rejection_answered h s req) as (I1 & I2 & I3).
  destruct (users_rejection_answered h s req) as (U1 & U2 & U3).
  repeat (split; [assumption |]). assumption.
Qed.

(** ** The guard of the users collection *)



(** ** Bodies that are not JSON *)

(** X8: when the body of the request cannot be parsed, the handlers that
    read it call nothing and answer from their [catch]: 500 with the fixed
    text for requests and for the updates of a user; for the creation of a
    user 500 too, unless the message of the parse error contains the text
    the handler takes for a duplicate, which gives 400; and for the mail
    relay 500 with the message of the parse error in [details]. *)
Theorem malformed_body_answers {joi : Joi.JoiLib} {S} (h : Backend S) (s : S)
        (env : Mail.Env) (req : HttpRequest) (e : exn) :
  json req = inl e ->
  answered_without_call (run h (Requests.POST req) s) s 500 "Error creating request"
  /\ answered_without_call (run h (Requests.PUT req) s) s 500 "Error updating request"
  /\ answered_without_call (run h (UserItem.PUT req) s) s 500 "Error updating user"
  /\ (forall id userId,
         searchParams_get "id" (searchParams req) = Some id -> id <> "" ->
         parseInt id = Some userId ->
         answered_without_call (run h (Users.PUT req) s) s 500 "Error updating user")
  /\ (if includes (error_message e) "Unique constraint failed"
      then answered_without_call (run h (Users.POST req) s) s 400
             "Username or email already exists"
      else answered_without_call (run h (Users.POST req) s) s 500
             "Error creating user")
  /\ response (run h (Mail.POST env req) s)
     = inr (NextResponse.of_json
              (VObj [("error", VStr "Error al enviar el correo");
                     ("details", VStr (error_message e))]) 500)
  /\ history (run h (Mail.POST env req) s) = []
  /\ final (run h (Mail.POST env req) s) = s.
Proof.
  intros Hbody.
  unfold answered_without_call, Requests.POST, Requests.PUT, UserItem.PUT,
    Users.PUT, Users.POST, Mail.POST.
  rewrite Hbody.
  split; [cbn; repeat split |]. split; [cbn; repeat split |].
  split; [cbn; repeat split |].
  split.
  { intros id userId -> Hne Hparse. apply String.eqb_neq in Hne.
    cbn. rewrite Hne, Hparse. cbn. repeat split. }
  split; [| cbn; repeat split].
  cbn. destruct (includes _ _); cbn; repeat split.
Qed.

Lemma malformed_body_answers_witness :
  let req := Scenario.malformed "http://localhost:3000/api/users?id=1"
               [("id", "1")] in
  let e := Error "Unexpected token < in JSON at position 0" in
  let run_of p := run Sample.backend p Sample.store in
  json req = inl e
  /\ answered_without_call (run_of (@Requests.POST Sample.joi req)) Sample.store
       500 "Error creating request"
  /\ answered_without_call (run_of (@Users.PUT Sample.joi req)) Sample.store
       500 "Error updating user"
  /\ answered_without_call (run_of (@Users.POST Sample.joi req)) Sample.store
       500 "Error creating user"
  /\ response (run_of (Mail.POST Sample.env req))
     = inr (NextResponse.of_json
              (VObj [("error", VStr "Error al enviar el correo");
                     ("details",
                      VStr "Unexpected token < in JSON at position 0")]) 500).
Proof.
  intros req e run_of.
  assert (H : json req = inl e) by reflexivity.
  destruct (@malformed_body_answers Sample.joi Store Sample.backend Sample.store
              Sample.env req e H)
    as (Hpost & _ & _ & Hput & Hcreate & Hmail & _).
  split; [exact H |]. split; [exact Hpost |].
  split; [exact (Hput "1" 1 eq_refl ltac:(discriminate) eq_refl) |].
  split; [exact Hcreate | exact Hmail].
Defined.

(** ** Creating a user *)

Lemma username_checked {joi : Joi.JoiLib} (abort : bool) (p : Joi.Presence)
      (fields : list (string * JsValue)) :
  assoc "username" fields <> VUndefined ->
  bad_username fields ->
  fst (Joi.validate_key abort
         (Joi.string_ [Joi.alphanum; Joi.min 3; Joi.max 30] [] None p)
         (assoc "username" fields)) <> [].
Proof.
  intros Hgiven H. unfold bad_username in H.
  destruct (assoc "username" fields) as [| | | | u | |];
    try contradiction; destruct p; cbn -[Nat.leb]; try discriminate.
  all: destruct (String.eqb u ""); [discriminate |].
  all: destruct (H u eq_refl) as [Hshort | [Hlong | Hchars]].
  all: destruct (Joi.all_chars Joi.is_alphanum_char u);
    destruct (Nat.leb_spec 3 (String.length u));
    destruct (Nat.leb_spec (String.length u) 30);
    destruct abort; cbn; try discriminate; lia.
Qed.

Lemma email_checked {joi : Joi.JoiLib} (abort : bool) (p : Joi.Presence)
      (fields : list (string * JsValue)) :
  assoc "email" fields <> VUndefined ->
  bad_email fields ->
  fst (Joi.validate_key abort (Joi.string_ [Joi.email] [] None p)
         (assoc "email" fields)) <> [].
Proof.
  intros Hgiven H. unfold bad_email in H.
  destruct (assoc "email" fields) as [| | | | m | |];
    try contradiction; destruct p; cbn; try discriminate.
  all: destruct (String.eqb m ""); [discriminate |].
  all: rewrite (H m eq_refl); destruct abort; discriminate.
Qed.

Lemma password_checked {joi : Joi.JoiLib} (abort : bool) (p : Joi.Presence)
      (fields : list (string * JsValue)) :
  assoc "password" fields <> VUndefined ->
  bad_password fields ->
  fst (Joi.validate_key abort (Joi.string_ [Joi.min 8] [] None p)
         (assoc "password" fields)) <> [].
Proof.
  intros Hgiven H. unfold bad_password in H.
  destruct (assoc "password" fields) as [| | | | w | |];
    try contradiction; destruct p; cbn -[Nat.leb]; try discriminate.
  all: destruct (String.eqb w ""); [discriminate |].
  all: specialize (H w eq_refl).
  all: destruct (Nat.leb_spec 8 (String.length w)); [lia |].
  all: destruct abort; discriminate.
Qed.

Lemma role_checked {joi : Joi.JoiLib} (abort : bool)
      (fields : list (string * JsValue)) :
  bad_role fields ->
  fst (Joi.validate_key abort
         (Joi.string_ [] ["user"; "admin"] None Joi.required)
         (assoc "role" fields)) <> [].
Proof.
  intros H. unfold bad_role in H.
  destruct (assoc "role" fields) as [| | | | r | |]; cbn;
    try (destruct abort; discriminate); try discriminate.
  destruct (H r eq_refl) as [Huser Hadmin].
  apply String.eqb_neq in Huser, Hadmin. rewrite Huser, Hadmin. cbn.
  destruct abort; discriminate.
Qed.

Lemma userSchema_checks {joi : Joi.JoiLib} (fields : list (string * JsValue)) :
  bad_username fields \/ bad_email fields \/ bad_password fields
  \/ bad_role fields ->
  Joi.details (Joi.validate Users.userSchema Joi.defaults (VObj fields)) <> [].
Proof.
  intros [H | [H | [H | H]]].
  - apply validate_object_error
      with (k := "username")
           (sch := Joi.string_ [Joi.alphanum; Joi.min 3; Joi.max 30] [] None
                               Joi.required);
      [left; reflexivity |].
    destruct (assoc "username" fields) eqn:E;
      try (rewrite <- E; apply username_checked;
           [rewrite E; discriminate | exact H]).
    apply required_key_missing. reflexivity.
  - apply validate_object_error
      with (k := "email") (sch := Joi.string_ [Joi.email] [] None Joi.required);
      [right; left; reflexivity |].
    destruct (assoc "email" fields) eqn:E;
      try (rewrite <- E; apply email_checked;
           [rewrite E; discriminate | exact H]).
    apply required_key_missing. reflexivity.
  - apply validate_object_error
      with (k := "password") (sch := Joi.string_ [Joi.min 8] [] None Joi.required);
      [right; right; left; reflexivity |].
    destruct (assoc "password" fields) eqn:E;
      try (rewrite <- E; apply password_checked;
           [rewrite E; discriminate | exact H]).
    apply required_key_missing. reflexivity.
  - apply validate_object_error
      with (k := "role")
           (sch := Joi.string_ [] ["user"; "admin"] None Joi.required);
      [right; right; right; left; reflexivity |].
    apply role_checked. exact H.
Qed.

(** X9: a creation payload whose username, e-mail address, password or role
    is missing, is not a string or breaks the rule of the schema (3 to 30
    alphanumeric characters, an e-mail address, at least 8 characters,
    [user] or [admin]) is answered with 400 and the message of the first
    validation error; the password is not hashed, no role is looked up and
    no user is created. *)
Theorem creation_payload_checked {joi : Joi.JoiLib} {S} (h : Backend S) (s : S)
        (req : HttpRequest) (fields : list (string * JsValue)) :
  json req = inr (VObj fields) ->
  bad_username fields \/ bad_email fields \/ bad_password fields
  \/ bad_role fields ->
  exists d rest,
    Joi.details (Joi.validate Users.userSchema Joi.defaults (VObj fields))
    = d :: rest
    /\ answered_without_call (run h (Users.POST req) s) s 400 (Joi.message d).
Proof.
  intros Hbody H. pose proof (userSchema_checks fields H) as Hd.
  unfold answered_without_call, Users.POST. rewrite Hbody.
  cbn -[Joi.validate].
  destruct (Joi.details _) as [| d ds]; [contradiction |]. cbn.
  exists d, ds. repeat split.
Qed.

Lemma creation_payload_checked_witness :
  let fields := [("username", VStr "bob"); ("email", VStr "bob@b.com");
                 ("password", VStr "short"); ("role", VStr "user")] in
  let req := Sample.request "http://localhost:3000/api/users" [] (VObj fields) in
  json req = inr (VObj fields)
  /\ bad_password fields
  /\ exists d rest,
      Joi.details
        (@Joi.validate Sample.joi Users.userSchema Joi.defaults (VObj fields))
      = d :: rest
      /\ answered_without_call
           (run Sample.backend (@Users.POST Sample.joi req) Sample.store)
           Sample.store 400 (@Joi.message Sample.joi d).
Proof.
  intros fields req.
  assert (Hbody : json req = inr (VObj fields)) by reflexivity.
  assert (Hbad : bad_password fields).
  { intros w Hw. injection Hw as <-. cbn. lia. }
  split; [exact Hbody |]. split; [exact Hbad |].
  exact (@creation_payload_checked Sample.joi Store Sample.backend Sample.store
           req fields Hbody (or_intror (or_intror (or_introl Hbad)))).
Defined.

(** X10: an update payload in which a supplied username, e-mail address or
    password breaks the rule of the schema is answered with 400 by both
    update handlers of users, and nothing is hashed or updated. *)
Theorem update_payload_checked {joi : Joi.JoiLib} {S} (h : Backend S) (s : S)
        (req : HttpRequest) (fields : list (string * JsValue))
        (id : string) (userId : Z) :
  json req = inr (VObj fields) ->
  searchParams_get "id" (searchParams req) = Some id -> id <> "" ->
  parseInt id = Some userId ->
  (assoc "username" fields <> VUndefined /\ bad_username fields)
  \/ (assoc "email" fields <> VUndefined /\ bad_email fields)
  \/ (assoc "password" fields <> VUndefined /\ bad_password fields) ->
  let opts := {| Joi.allowUnknown := true; Joi.abortEarly := false |} in
  let collection_errors :=
    Joi.details (Joi.validate Users.updateUserSchema opts (VObj fields)) in
  let item_errors :=
    Joi.details (Joi.validate UserItem.updateUserSchema opts (VObj fields)) in
  collection_errors <> []
  /\ answered_without_call (run h (Users.PUT req) s) s 400
       (join ", " (map Joi.message collection_errors))
  /\ item_errors <> []
  /\ answered_without_call (run h (UserItem.PUT req) s) s 400
       (join ", " (map Joi.message item_errors)).
Proof.
  intros Hbody Hid Hne Hparse H opts collection_errors item_errors.
  subst collection_errors item_errors. apply String.eqb_neq in Hne.
  assert (Hcollection :
            Joi.details (Joi.validate Users.updateUserSchema opts (VObj fields))
            <> []).
  { destruct H as [[Hg H] | [[Hg H] | [Hg H]]].
    - apply validate_object_error
        with (k := "username")
             (sch := Joi.string_ [Joi.alphanum; Joi.min 3; Joi.max 30] [] None
                                 Joi.optional);
        [left; reflexivity | apply username_checked; assumption].
    - apply validate_object_error
        with (k := "email") (sch := Joi.string_ [Joi.email] [] None Joi.optional);
        [right; left; reflexivity | apply email_checked; assumption].
    - apply validate_object_error
        with (k := "password")
             (sch := Joi.string_ [Joi.min 8] [] None Joi.optional);
        [right; right; left; reflexivity | apply password_checked; assumption]. }
  assert (Hitem :
            Joi.details (Joi.validate UserItem.updateUserSchema opts (VObj fields))
            <> []).
  { destruct H as [[Hg H] | [[Hg H] | [Hg H]]].
    - apply validate_object_error
        with (k := "username")
             (sch := Joi.string_ [Joi.alphanum; Joi.min 3; Joi.max 30] [] None
                                 Joi.required);
        [left; reflexivity | apply username_checked; assumption].
    - apply validate_object_error
        with (k := "email") (sch := Joi.string_ [Joi.email] [] None Joi.required);
        [right; left; reflexivity | apply email_checked; assumption].
    - apply validate_object_error
        with (k := "password")
             (sch := Joi.string_ [Joi.min 8] [] None Joi.required);
        [right; right; left; reflexivity | apply password_checked; assumption]. }
  unfold answered_without_call, Users.PUT, UserItem.PUT.
  rewrite Hbody, Hid. cbn -[Joi.validate join map]. rewrite Hne, Hparse.
  cbn -[Joi.validate join map]. fold opts.
  split; [exact Hcollection |]. split; [| split; [exact Hitem |]].
  - destruct (Joi.details (Joi.validate Users.updateUserSchema opts (VObj fields)))
      as [| d ds]; [contradiction |].
    cbn -[join map]. repeat split.
  - destruct (Joi.details (Joi.validate UserItem.updateUserSchema opts (VObj fields)))
      as [| d ds]; [contradiction |].
    cbn -[join map]. repeat split.
Qed.

Lemma update_payload_checked_witness :
  let fields := [("email", VStr "not-an-address")] in
  let req := Sample.request "http://localhost:3000/api/users?id=1"
               [("id", "1")] (VObj fields) in
  assoc "email" fields <> VUndefined
  /\ @bad_email Sample.joi fields
  /\ answered_without_call
       (run Sample.backend (@Users.PUT Sample.joi req) Sample.store)
       Sample.store 400 (Sample.quote "email" ++ " must be a valid email")
  /\ answered_without_call
       (run Sample.backend (@UserItem.PUT Sample.joi req) Sample.store)
       Sample.store 400
       (Sample.quote "username" ++ " is required, "
        ++ Sample.quote "email" ++ " must be a valid email, "
        ++ Sample.quote "password" ++ " is required").
Proof.
  intros fields req.
  assert (Hgiven : assoc "email" fields <> VUndefined) by discriminate.
  assert (Hbad : @bad_email Sample.joi fields).
  { intros m Hm. injection Hm as <-. reflexivity. }
  split; [exact Hgiven |]. split; [exact Hbad |].
  destruct (@update_payload_checked Sample.joi Store Sample.backend Sample.store
              req fields "1" 1 eq_refl eq_refl ltac:(discriminate) eq_refl
              (or_intror (or_introl (conj Hgiven Hbad))))
    as (_ & Hcollection & _ & Hitem).
  split; [exact Hcollection | exact Hitem].
Defined.

(** Settles a goal about a history that is known call by call: the
    hypothesis that an event is in it is split into its cases. *)
Ltac among_calls H :=
  cbn in H;
  repeat match type of H with
         | _ \/ _ => destruct H as [H | H]
         | False => destruct H
         | _ = ?x =>
             first [ discriminate H
                   | is_var x; subst x
                   | injection H as <-; intros; subst ]
         end.

(** X11: a user is created only after the password was hashed with 10
    rounds and the role was found by its name, in that order; the row gets
    the output of bcrypt as its password, never the submitted one, the
    identifier of the role that was found, the submitted username and e-mail
    address, and for each profile field the submitted value or the empty
    string. *)
Theorem user_creation_inputs {joi : Joi.JoiLib} {S} (h : Backend S) (s : S)
        (req : HttpRequest) (data : UserCreateInput) (r : exn + User) :
  In (E_UserCreate data r) (history (run h (Users.POST req) s)) ->
  exists body hashed found,
    json req = inr body
    /\ Joi.details (Joi.validate Users.userSchema Joi.defaults body) = []
    /\ history (run h (Users.POST req) s)
       = [E_BcryptHash (get "password" body) 10 (inr hashed);
          E_RoleFindUnique (get "role" body) (inr (Some found));
          E_UserCreate data r]
    /\ in_password data = hashed
    /\ in_role_connect data = role_id found
    /\ in_username data = get "username" body
    /\ in_email data = get "email" body
    /\ in_firstName (in_profile_create data) = js_or (get "firstName" body) (VStr "")
    /\ in_lastName (in_profile_create data) = js_or (get "lastName" body) (VStr "")
    /\ in_phone (in_profile_create data) = js_or (get "phone" body) (VStr "")
    /\ in_address (in_profile_create data) = js_or (get "address" body) (VStr "").
Proof.
  unfold Users.POST. crack h.
  all: intros Hin; among_calls Hin.
  all: do 3 eexists; repeat split; first [reflexivity | eassumption].
Qed.

Lemma user_creation_inputs_witness :
  let out := run Sample.backend (@Users.POST Sample.joi Sample.create_alice)
               Sample.empty_store in
  let blank := {| in_firstName := VStr ""; in_lastName := VStr "";
                  in_phone := VStr ""; in_address := VStr "" |} in
  let data := {| in_username := VStr "alice01"; in_email := VStr "a@b.com";
                 in_password := "$2b$10$longpw123"; in_role_connect := 1;
                 in_profile_create := blank |} in
  let r := inr Sample.alice_created in
  In (E_UserCreate data r) (history out)
  /\ exists body hashed found,
      json Sample.create_alice = inr body
      /\ Joi.details (@Joi.validate Sample.joi Users.userSchema Joi.defaults body)
         = []
      /\ history out
         = [E_BcryptHash (get "password" body) 10 (inr hashed);
            E_RoleFindUnique (get "role" body) (inr (Some found));
            E_UserCreate data r]
      /\ in_password data = hashed
      /\ in_role_connect data = role_id found
      /\ in_username data = get "username" body
      /\ in_email data = get "email" body
      /\ in_firstName (in_profile_create data)
         = js_or (get "firstName" body) (VStr "")
      /\ in_lastName (in_profile_create data)
         = js_or (get "lastName" body) (VStr "")
      /\ in_phone (in_profile_create data) = js_or (get "phone" body) (VStr "")
      /\ in_address (in_profile_create data)
         = js_or (get "address" body) (VStr "").
Proof.
  intros out blank data r.
  assert (Hin : In (E_UserCreate data r) (history out))
    by (vm_compute; right; right; left; reflexivity).
  split; [exact Hin |].
  exact (@user_creation_inputs Sample.joi Store Sample.backend Sample.empty_store
           Sample.create_alice data r Hin).
Defined.

(** X12: when the role lookup answers that there is no role of the
    submitted name, the creation is answered with 400 and [Role not found];
    the password has been hashed by then, and no user is created. *)
Theorem unknown_role_creates_nothing {joi : Joi.JoiLib} {S} (h : Backend S)
        (s : S) (req : HttpRequest) (name : JsValue) :
  In (E_RoleFindUnique name (inr None)) (history (run h (Users.POST req) s)) ->
  response (run h (Users.POST req) s)
  = inr (NextResponse.of_json (error_body "Role not found") 400)
  /\ (exists body hashed,
         json req = inr body
         /\ history (run h (Users.POST req) s)
            = [E_BcryptHash (get "password" body) 10 (inr hashed);
               E_RoleFindUnique (get "role" body) (inr None)])
  /\ forall e, In e (history (run h (Users.POST req) s)) ->
               is_user_create e = false.
Proof.
  unfold Users.POST. crack h.
  all: intros Hin; among_calls Hin.
  split; [reflexivity |]. split; [do 2 eexists; split; reflexivity |].
  intros e0 [<- | [<- | []]]; reflexivity.
Qed.

Lemma unknown_role_creates_nothing_witness :
  let out := run Sample.backend (@Users.POST Sample.joi Sample.create_alice)
               Scenario.no_roles in
  In (E_RoleFindUnique (VStr "user") (inr None)) (history out)
  /\ response out = inr (NextResponse.of_json (error_body "Role not found") 400)
  /\ (exists body hashed,
         json Sample.create_alice = inr body
         /\ history out
            = [E_BcryptHash (get "password" body) 10 (inr hashed);
               E_RoleFindUnique (get "role" body) (inr None)])
  /\ forall e, In e (history out) -> is_user_create e = false.
Proof.
  intros out.
  assert (Hin : In (E_RoleFindUnique (VStr "user") (inr None)) (history out))
    by (vm_compute; right; left; reflexivity).
  split; [exact Hin |].
  exact (@unknown_role_creates_nothing Sample.joi Store Sample.backend
           Scenario.no_roles Sample.create_alice (VStr "user") Hin).
Defined.

(** X13: when a call of the creation of a user is rejected, the answer
    depends on the message of the error alone: 400 with
    [Username or email already exists] when it contains
    [Unique constraint failed], whichever call it came from, and 500 with
    [Error creating user] otherwise. *)
Theorem creation_failure_mapping {joi : Joi.JoiLib} {S} (h : Backend S) (s : S)
        (req : HttpRequest) (e : Event) (error : exn) :
  In e (history (run h (Users.POST req) s)) ->
  rejection e = Some error ->
  response (run h (Users.POST req) s)
  = inr (if includes (error_message error) "Unique constraint failed"
         then NextResponse.of_json
                (error_body "Username or email already exists") 400
         else NextResponse.of_json (error_body "Error creating user") 500).
Proof.
  unfold Users.POST. crack h.
  all: intros Hin Hrejected; among_calls Hin; cbn in Hrejected;
    try discriminate Hrejected.
  all: injection Hrejected as <-; first [reflexivity | congruence].
Qed.

Lemma creation_failure_mapping_witness :
  let out := run Sample.backend (@Users.POST Sample.joi Sample.create_alice)
               Sample.store in
  let data := {| in_username := VStr "alice01"; in_email := VStr "a@b.com";
                 in_password := "$2b$10$longpw123"; in_role_connect := 1;
                 in_profile_create :=
                   {| in_firstName := VStr ""; in_lastName := VStr "";
                      in_phone := VStr ""; in_address := VStr "" |} |} in
  let e := E_UserCreate data Prisma.unique_violation in
  let error := Error "Unique constraint failed on the fields: (`username`)" in
  In e (history out)
  /\ rejection e = Some error
  /\ response out
     = inr (NextResponse.of_json
              (error_body "Username or email already exists") 400).
Proof.
  intros out data e error.
  assert (Hin : In e (history out))
    by (vm_compute; right; right; left; reflexivity).
  assert (Hrejected : rejection e = Some error) by reflexivity.
  split; [exact Hin |]. split; [exact Hrejected |].
  exact (@creation_failure_mapping Sample.joi Store Sample.backend Sample.store
           Sample.create_alice e error Hin Hrejected).
Defined.

(** ** Updating a user through the collection *)

(** X14: the update of a user through the collection changes the row of
    the identifier in the query, and its data have at most a username, an
    e-mail address and a password: the submitted username and e-mail
    address when they are given, and as password only the output of bcrypt
    (10 rounds) for the submitted one; without a submitted password nothing
    is hashed and the password is left out.  No other column, the role
    included, is ever written. *)
Theorem collection_update_data {joi : Joi.JoiLib} {S} (h : Backend S) (s : S)
        (req : HttpRequest) (id : jsnum) (data : list (string * JsValue))
        (r : exn + User) :
  In (E_UserUpdate id data r) (history (run h (Users.PUT req) s)) ->
  exists body key userId,
    json req = inr body
    /\ Users.given (searchParams_get "id" (searchParams req)) = Some key
    /\ parseInt key = Some userId
    /\ id = Some userId
    /\ assoc "username" data
       = (if truthy (get "username" body) then get "username" body
          else VUndefined)
    /\ assoc "email" data
       = (if truthy (get "email" body) then get "email" body else VUndefined)
    /\ (if truthy (get "password" body)
        then exists hashed,
            In (E_BcryptHash (get "password" body) 10 (inr hashed))
               (history (run h (Users.PUT req) s))
            /\ assoc "password" data = VStr hashed
        else assoc "password" data = VUndefined
             /\ forall e, In e (history (run h (Users.PUT req) s)) ->
                          is_hash e = false)
    /\ (forall k, k <> "username" -> k <> "email" -> k <> "password" ->
                  assoc k data = VUndefined).
Proof.
  unfold Users.PUT. crack h.
  all: intros Hin; among_calls Hin.
  all: do 3 eexists.
  all: split; [reflexivity |].
  all: split; [reflexivity |].
  all: split; [eassumption |].
  all: split; [reflexivity |].
  all: repeat match goal with H : truthy _ = _ |- _ => rewrite H; clear H end.
  all: split; [reflexivity |]. 
  all: split; [reflexivity |].
  all: split;
    [| intros k H1 H2 H3; apply String.eqb_neq in H1, H2, H3; cbn;
       rewrite ?H1, ?H2, ?H3; reflexivity].
  all: first
         [ eexists; split; [left; reflexivity | reflexivity]
         | split; [reflexivity |];
           let e := fresh "e" in
           let H := fresh "H" in
           intros e H; among_calls H; reflexivity ].
Qed.

Lemma collection_update_data_witness :
  let req := Sample.request "http://localhost:3000/api/users?id=1"
               [("id", "1")] (VObj [("password", VStr "newsecret9")]) in
  let out := run Sample.backend (@Users.PUT Sample.joi req) Sample.store in
  let data := [("password", VStr "$2b$10$newsecret9")] in
  let r := inr {| user_id := 1; username := "alice01"; email := "a@b.com";
                  password := "$2b$10$newsecret9"; roleId := 1 |} in
  In (E_UserUpdate (Some 1) data r) (history out)
  /\ exists body key userId,
      json req = inr body
      /\ Users.given (searchParams_get "id" (searchParams req)) = Some key
      /\ parseInt key = Some userId
      /\ Some 1 = Some userId
      /\ assoc "username" data
         = (if truthy (get "username" body) then get "username" body
            else VUndefined)
      /\ assoc "email" data
         = (if truthy (get "email" body) then get "email" body else VUndefined)
      /\ (if truthy (get "password" body)
          then exists hashed,
              In (E_BcryptHash (get "password" body) 10 (inr hashed))
                 (history out)
              /\ assoc "password" data = VStr hashed
          else assoc "password" data = VUndefined
               /\ forall e, In e (history out) -> is_hash e = false)
      /\ (forall k, k <> "username" -> k <> "email" -> k <> "password" ->
                    assoc k data = VUndefined).
Proof.
  intros req out data r.
  assert (Hin : In (E_UserUpdate (Some 1) data r) (history out))
    by (vm_compute; right; left; reflexivity).
  split; [exact Hin |].
  exact (@collection_update_data Sample.joi Store Sample.backend Sample.store
           req (Some 1) data r Hin).
Defined.

Lemma truthy_js_or (a b : JsValue) :
  truthy (js_or a b) = truthy a || truthy b.
Proof. unfold js_or. destruct (truthy a) eqn:E; [exact E | reflexivity]. Qed.

(** X15: the profile of a user is upserted only when the payload has a
    first name, a last name, a phone or an address that is not empty, only
    after the row of the user was updated, and as the last call; it gets
    the four fields as they were submitted, for the update and for the
    creation alike, under the identifier of the query. *)
Theorem profile_upsert_condition {joi : Joi.JoiLib} {S} (h : Backend S) (s : S)
        (req : HttpRequest) (userId : Z) (update create : ProfileInput)
        (r : exn + UserProfile) :
  In (E_UserProfileUpsert userId update create r)
     (history (run h (Users.PUT req) s)) ->
  exists body key data updated before,
    json req = inr body
    /\ Users.given (searchParams_get "id" (searchParams req)) = Some key
    /\ parseInt key = Some userId
    /\ truthy (get "firstName" body) || truthy (get "lastName" body)
       || truthy (get "phone" body) || truthy (get "address" body) = true
    /\ update = {| in_firstName := get "firstName" body;
                   in_lastName := get "lastName" body;
                   in_phone := get "phone" body;
                   in_address := get "address" body |}
    /\ create = update
    /\ history (run h (Users.PUT req) s)
       = (before ++ [E_UserUpdate (Some userId) data (inr updated);
                     E_UserProfileUpsert userId update create r])%list.
Proof.
  unfold Users.PUT. crack h.
  all: intros Hin; among_calls Hin.
  all: do 5 eexists.
  all: split; [reflexivity |].
  all: split; [reflexivity |].
  all: split; [eassumption |].
  all: split; [rewrite <- !truthy_js_or; assumption |].
  all: split; [reflexivity |].
  all: split; [reflexivity |].
  all: match goal with
       | |- ?t = (?before ++ _)%list =>
           match t with
           | [_; _] => unify before (@nil Event)
           | [?first; _; _] => unify before [first]
           end
       end; reflexivity.
Qed.

Lemma profile_upsert_condition_witness :
  let req := Sample.request "http://localhost:3000/api/users?id=1"
               [("id", "1")] (VObj [("phone", VStr "555-1234")]) in
  let out := run Sample.backend (@Users.PUT Sample.joi req) Sample.store in
  let fields := {| in_firstName := VUndefined; in_lastName := VUndefined;
                   in_phone := VStr "555-1234"; in_address := VUndefined |} in
  let r := inr {| profile_userId := 1; firstName := "Alice";
                  lastName := "Liddell"; phone := "555-1234"; address := "" |} in
  In (E_UserProfileUpsert 1 fields fields r) (history out)
  /\ exists body key data updated before,
      json req = inr body
      /\ Users.given (searchParams_get "id" (searchParams req)) = Some key
      /\ parseInt key = Some 1
      /\ truthy (get "firstName" body) || truthy (get "lastName" body)
         || truthy (get "phone" body) || truthy (get "address" body) = true
      /\ fields = {| in_firstName := get "firstName" body;
                     in_lastName := get "lastName" body;
                     in_phone := get "phone" body;
                     in_address := get "address" body |}
      /\ fields = fields
      /\ history out
         = (before ++ [E_UserUpdate (Some 1) data (inr updated);
                       E_UserProfileUpsert 1 fields fields r])%list.
Proof.
  intros req out fields r.
  assert (Hin : In (E_UserProfileUpsert 1 fields fields r) (history out))
    by (vm_compute; right; left; reflexivity).
  split; [exact Hin |].
  exact (@profile_upsert_condition Sample.joi Store Sample.backend Sample.store
           req 1 fields fields r Hin).
Defined.

(** ** Deleting one user *)

(** X16: the deletion handler of one user answers 500 with
    [Error deleting user] in every run.  When the deletion is rejected this
    is the answer of the [catch]; when it succeeds, the handler builds its
    answer from a JSON body and status 204, which the response constructor
    refuses, and the [catch] answers for a deletion that was done. *)
Theorem item_delete_always_500 {S} (h : Backend S) (s : S) (req : HttpRequest) :
  response (run h (UserItem.DELETE req) s)
  = inr (NextResponse.of_json (error_body "Error deleting user") 500)
  /\ forall u,
      history (run h (UserItem.DELETE req) s)
      = [E_UserDelete (parseInt (split_pop (url req))) (inr u)] ->
      response (run h (UserItem.DELETE req) s)
      <> inr {| res_status := 204; res_body := None |}.
Proof.
  unfold UserItem.DELETE. crack h; (split; [reflexivity | discriminate]).
Qed.

(** ** The statuses of the answers *)

(** Picks the status of a response that is known. *)
Ltac known_answer :=
  eexists; split; [reflexivity |]; cbn;
  repeat first [left; reflexivity | right].

Lemma requests_answer {joi : Joi.JoiLib} {S} (h : Backend S) (s : S)
      (req : HttpRequest) :
  answers (run h (Requests.POST req) s) [201; 400; 500]
  /\ answers (run h (Requests.PUT req) s) [200; 400; 500]
  /\ answers (run h (Requests.DELETE req) s) [200; 500]
  /\ answers (run h RequestStats.GET s) [200; 500].
Proof.
  unfold answers, Requests.POST, Requests.PUT, Requests.DELETE, RequestStats.GET,
    Requests.logActivity.
  split; [| split; [| split]]; crack h; known_answer.
Qed.

Lemma user_item_answers {joi : Joi.JoiLib} {S} (h : Backend S) (s : S)
      (req : HttpRequest) :
  answers (run h (UserItem.GET req) s) [200; 404; 500]
  /\ answers (run h (UserItem.PUT req) s) [200; 400; 500]
  /\ answers (run h (UserItem.DELETE req) s) [500].
Proof.
  unfold answers, UserItem.GET, UserItem.PUT, UserItem.DELETE.
  split; [| split]; crack h; known_answer.
Qed.

Lemma users_answer {joi : Joi.JoiLib} {S} (h : Backend S) (s : S)
      (req : HttpRequest) :
  answers (run h (Users.GET req) s) [200; 404; 500]
  /\ answers (run h (Users.POST req) s) [201; 400; 500]
  /\ answers (run h (Users.PUT req) s) [200; 400; 500]
  /\ answers (run h (Users.DELETE req) s) [204; 400; 500].
Proof.
  unfold answers, Users.GET, Users.POST, Users.PUT, Users.DELETE.
  split; [| split; [| split]]; crack h; known_answer.
Qed.

Lemma mail_answers {S} (h : Backend S) (s : S) (env : Mail.Env)
      (req : HttpRequest) :
  answers (run h (Mail.POST env req) s) [200; 400; 500].
Proof. unfold answers, Mail.POST. crack h; known_answer. Qed.

(** X17: no handler lets an exception escape, and each one answers with a
    status of its own short list. *)
Theorem handlers_always_respond {joi : Joi.JoiLib} {S} (h : Backend S) (s : S)
        (env : Mail.Env) (req : HttpRequest) :
  answers (run h (Requests.POST req) s) [201; 400; 500]
  /\ answers (run h (Requests.PUT req) s) [200; 400; 500]
  /\ answers (run h (Requests.DELETE req) s) [200; 500]
  /\ answers (run h RequestStats.GET s) [200; 500]
  /\ answers (run h (UserItem.GET req) s) [200; 404; 500]
  /\ answers (run h (UserItem.PUT req) s) [200; 400; 500]
  /\ answers (run h (UserItem.DELETE req) s) [500]
  /\ answers (run h (Users.GET req) s) [200; 404; 500]
  /\ answers (run h (Users.POST req) s) [201; 400; 500]
  /\ answers (run h (Users.PUT req) s) [200; 400; 500]
  /\ answers (run h (Users.DELETE req) s) [204; 400; 500]
  /\ answers (run h (Mail.POST env req) s) [200; 400; 500].
Proof.
  destruct (requests_answer h s req) as (R1 & R2 & R3 & R4).
  destruct (user_item_answers h s req) as (I1 & I2 & I3).
  destruct (users_answer h s req) as (U1 & U2 & U3 & U4).
  pose proof (mail_answers h s env req) as M.
  repeat (split; [assumption |]). assumption.
Qed.

(** ** The tallies of the statistics *)

Lemma tally_with_others (rs : list Request) :
  RequestStats.count_status "pending" rs
  + RequestStats.count_status "in-progress" rs
  + RequestStats.count_status "completed" rs
  + RequestStats.count_status "rejected" rs
  + other_status rs
  = Z.of_nat (List.length rs).
Proof.
  unfold other_status.
  set (p := fun r : Request =>
              negb (existsb (String.eqb (status r))
                            ["pending"; "in-progress"; "completed"; "rejected"])).
  assert (Hp : forall r,
             p r = negb ((status r =? "pending")%string
                         || (status r =? "in-progress")%string
                         || (status r =? "completed")%string
                         || (status r =? "rejected")%string)).
  { intros r. subst p. cbn. rewrite Bool.orb_false_r, !Bool.orb_assoc.
    reflexivity. }
  clearbody p.
  induction rs as [| r rs IH]; [reflexivity |].
  rewrite !count_status_cons. cbn [filter]. rewrite Hp.
  cbn [List.length]. rewrite Nat2Z.inj_succ.
  destruct (String.eqb_spec (status r) "pending") as [-> | _];
    [cbn [String.eqb Ascii.eqb Bool.eqb orb negb List.length]; lia |].
  destruct (String.eqb_spec (status r) "in-progress") as [-> | _];
    [cbn [String.eqb Ascii.eqb Bool.eqb orb negb List.length]; lia |].
  destruct (String.eqb_spec (status r) "completed") as [-> | _];
    [cbn [String.eqb Ascii.eqb Bool.eqb orb negb List.length]; lia |].
  destruct (String.eqb (status r) "rejected");
    cbn [orb negb List.length]; rewrite ?Nat2Z.inj_succ; lia.
Qed.

(** X18: when the query for all requests is answered, the statistics give
    as total the number of stored requests and under each of the four
    names the number of stored requests of exactly that status
    ([count_status] is the filter of the source); what the
    four counts miss of the total is the number of requests whose status
    is none of the four. *)
Theorem stats_accounting {S} (h : Backend S) (s : S) (stored : list Request) :
  history (run h RequestStats.GET s) = [E_RequestFindMany (inr stored)] ->
  response (run h RequestStats.GET s)
  = inr (NextResponse.of_json
           (VObj [("total", VNum (Z.of_nat (List.length stored)));
                  ("pending", VNum (RequestStats.count_status "pending" stored));
                  ("inProgress",
                   VNum (RequestStats.count_status "in-progress" stored));
                  ("completed",
                   VNum (RequestStats.count_status "completed" stored));
                  ("rejected",
                   VNum (RequestStats.count_status "rejected" stored))]) 200)
  /\ Z.of_nat (List.length stored)
     - (RequestStats.count_status "pending" stored
        + RequestStats.count_status "in-progress" stored
        + RequestStats.count_status "completed" stored
        + RequestStats.count_status "rejected" stored)
     = other_status stored.
Proof.
  unfold RequestStats.GET.
  cbn -[RequestStats.count_status other_status Z.sub Z.add Z.of_nat].
  destruct (h _ RequestFindMany s) as [[e | rs] s1];
    cbn -[RequestStats.count_status other_status Z.sub Z.add Z.of_nat];
    intros H.
  - discriminate H.
  - injection H as ->. split; [reflexivity |].
    pose proof (tally_with_others stored). lia.
Qed.

Lemma stats_accounting_witness :
  let stored := [Sample.printer; Sample.badge] in
  let out := run Sample.backend RequestStats.GET Sample.store in
  history out = [E_RequestFindMany (inr stored)]
  /\ response out
     = inr (NextResponse.of_json
              (VObj [("total", VNum 2); ("pending", VNum 1);
                     ("inProgress", VNum 0); ("completed", VNum 1);
                     ("rejected", VNum 0)]) 200)
  /\ other_status stored = 0.
Proof.
  intros stored out.
  assert (H : history out = [E_RequestFindMany (inr stored)]) by reflexivity.
  destruct (stats_accounting Sample.backend Sample.store stored H)
    as (Hresponse & Hothers).
  split; [exact H |]. split; [exact Hresponse |].
  rewrite <- Hothers. reflexivity.
Defined.

(** ** What the mail relay sends *)

(** X19: the mail relay sends at most one message, and only for a payload
    whose [to], [subject] and [text] are all there and not empty: the
    message has these three as they were submitted and the SMTP user of
    the environment as sender, and the transport is set up from the
    environment, secure exactly when the port variable is [465].  When the
    transport accepted the message, the answer is 200 with what the
    transport returned in [info]. *)
Theorem mail_sent_as_requested {S} (h : Backend S) (s : S) (env : Mail.Env)
        (req : HttpRequest) (options : TransportOptions) (mail : MailOptions)
        (r : exn + JsValue) :
  In (E_SendMail options mail r) (history (run h (Mail.POST env req) s)) ->
  exists body,
    json req = inr body
    /\ truthy (get "to" body) = true
    /\ truthy (get "subject" body) = true
    /\ truthy (get "text" body) = true
    /\ mail = {| from := Mail.SMTP_USER env; to := get "to" body;
                 subject := get "subject" body; text := get "text" body |}
    /\ host options = Mail.SMTP_HOST env
    /\ port options
       = parseInt_radix (to_string_or "undefined" (Mail.SMTP_PORT env)) (Some 10)
    /\ (secure options = true <-> Mail.SMTP_PORT env = Some "465")
    /\ auth_user options = Mail.SMTP_USER env
    /\ auth_pass options = Mail.SMTP_PASS env
    /\ history (run h (Mail.POST env req) s) = [E_SendMail options mail r]
    /\ forall info,
        r = inr info ->
        response (run h (Mail.POST env req) s)
        = inr (NextResponse.of_json
                 (VObj [("message", VStr "Correo enviado con éxito");
                        ("info", info)]) 200).
Proof.
  unfold Mail.POST. destruct (json req) as [e | body]; cbn; [intros [] |].
  destruct (Mail.destructure body) as [e | obj] eqn:Hobj; cbn; [intros [] |].
  assert (Hsame : obj = body).
  { destruct body; cbn in Hobj; try discriminate Hobj;
      injection Hobj as <-; reflexivity. }
  subst obj.
  destruct (negb (truthy (get "to" body)) || negb (truthy (get "subject" body))
            || negb (truthy (get "text" body))) eqn:Hgiven;
    cbn; [intros [] |].
  apply Bool.orb_false_elim in Hgiven. destruct Hgiven as [Hgiven Htext].
  apply Bool.orb_false_elim in Hgiven. destruct Hgiven as [Hto Hsubject].
  apply Bool.negb_false_iff in Hto, Hsubject, Htext.
  assert (Hsecure :
            match Mail.SMTP_PORT env with
            | Some p => String.eqb p "465"
            | None => false
            end = true <-> Mail.SMTP_PORT env = Some "465").
  { destruct (Mail.SMTP_PORT env) as [p |]; split; intros H;
      try discriminate H.
    - apply String.eqb_eq in H. subst p. reflexivity.
    - injection H as ->. reflexivity. }
  next_call h; intros [H | []]; injection H as <- <- <-; exists body;
    repeat split; try assumption; try (apply Hsecure); try discriminate.
  intros info Hinfo. injection Hinfo as <-. reflexivity.
Qed.

Lemma mail_sent_as_requested_witness :
  let options := {| host := Some "127.0.0.1"; port := Some 587; secure := false;
                    auth_user := Some "noreply@app.example";
                    auth_pass := Some "secret" |} in
  let mail := {| from := Some "noreply@app.example"; to := VStr "bob@b.com";
                 subject := VStr "Welcome"; text := VStr "Hello Bob" |} in
  let r := inl (Error "connect ECONNREFUSED 127.0.0.1:587") in
  let out := run Sample.backend (Mail.POST Sample.env Sample.mail_request)
               Sample.store in
  In (E_SendMail options mail r) (history out)
  /\ exists body,
      json Sample.mail_request = inr body
      /\ truthy (get "to" body) = true
      /\ truthy (get "subject" body) = true
      /\ truthy (get "text" body) = true
      /\ mail = {| from := Mail.SMTP_USER Sample.env; to := get "to" body;
                   subject := get "subject" body; text := get "text" body |}
      /\ host options = Mail.SMTP_HOST Sample.env
      /\ port options
         = parseInt_radix (to_string_or "undefined" (Mail.SMTP_PORT Sample.env))
                          (Some 10)
      /\ (secure options = true <-> Mail.SMTP_PORT Sample.env = Some "465")
      /\ auth_user options = Mail.SMTP_USER Sample.env
      /\ auth_pass options = Mail.SMTP_PASS Sample.env
      /\ history out = [E_SendMail options mail r]
      /\ forall info,
          r = inr info ->
          response out
          = inr (NextResponse.of_json
                   (VObj [("message", VStr "Correo enviado con éxito");
                          ("info", info)]) 200).
Proof.
  intros options mail r out.
  assert (Hin : In (E_SendMail options mail r) (history out))
    by (left; reflexivity).
  split; [exact Hin |].
  exact (@mail_sent_as_requested Store Sample.backend Sample.store Sample.env
           Sample.mail_request options mail r Hin).
Defined.
